(** * Order aggregate, Product entity and OrderLine value object

    A shallow embedding of the production cell of
    [aggregate-root_entity_value-object.ipynb]: the pydantic models
    [Product], [OrderLine] and [Order], their field validators, and the two
    mutation methods of the aggregate root.  Python integers are unbounded,
    so every integer field is a [Z].  Methods that mutate [self] are written
    in a state-and-exception monad over the [Order] instance. *)

From Stdlib Require Import ZArith Lia.
From stdpp Require Import base option list strings pretty gmap.

Open Scope Z_scope.

(** ** Exceptions *)

(** One line of a pydantic [ValidationError]: the field, the message and the
    error type, as in
    [price / field required (type=value_error.missing)]. *)
Record error_item := ErrorItem {
  err_loc : string;
  err_msg : string;
  err_type : string
}.

Inductive exn :=
| ValidationError (model : string) (errors : list error_item)
| ValueError (message : string)
| TypeError (message : string).

Definition result (A : Type) : Type := exn + A.

Definition exn_message (e : exn) : string :=
  match e with
  | ValidationError _ errors => String.concat "; " (err_msg <$> errors)
  | ValueError m => m
  | TypeError m => m
  end.

(** ** Data model *)

Record Product := mkProduct {
  product_number : Z;
  price : Z
}.

Record OrderLine := mkOrderLine {
  product : Product;
  product_count : Z
}.

Record Order := mkOrder {
  order_lines : list OrderLine;
  overall_price : Z
}.

(** ** Field validators *)

Definition validate_product_number (value : Z) : result Z :=
  let product_number_min := 0 in
  let product_number_max := 999999 in
  if (value <? product_number_min) || (value >? product_number_max) then
    inl (ValueError ("product_number is " +:+ pretty value
                     +:+ " but must be between " +:+ pretty product_number_min
                     +:+ " and " +:+ pretty product_number_max +:+ "."))
  else inr value.

Definition validate_price (value : Z) : result Z :=
  let price_min := 1 in
  if value <? price_min then
    inl (ValueError ("price is " +:+ pretty value
                     +:+ " but must be at least " +:+ pretty price_min +:+ "."))
  else inr value.

Definition validate_product_count (value : Z) : result Z :=
  if value <=? 0 then
    inl (ValueError ("product_count is " +:+ pretty value
                     +:+ " but must be greater than 0."))
  else inr value.

(** ** Construction

    [BaseModel.__init__] looks every declared field up in the keyword
    arguments.  A required field that is absent is reported as
    [field required]; a supplied one goes through the field's validator, and
    a [ValueError] raised there becomes one line of the [ValidationError].
    All fields are checked before anything is raised, and the instance gets
    its attributes only when no field failed. *)

Definition validate_field {A : Type} (name : string)
    (validator : A -> result A) (input : option A) : list error_item + A :=
  match input with
  | None => inl [ErrorItem name "field required" "value_error.missing"]
  | Some value =>
      match validator value with
      | inl e => inl [ErrorItem name (exn_message e) "value_error"]
      | inr v => inr v
      end
  end.

Definition field_errors {A : Type} (r : list error_item + A) : list error_item :=
  match r with
  | inl errors => errors
  | inr _ => []
  end.

Definition Product_init (pn pr : option Z) : result Product :=
  match validate_field "product_number" validate_product_number pn,
        validate_field "price" validate_price pr with
  | inr n, inr p => inr (mkProduct n p)
  | r1, r2 => inl (ValidationError "Product" (field_errors r1 ++ field_errors r2))
  end.

(** The [product] field is a model instance: pydantic accepts an instance of
    the declared class as it is. *)
Definition OrderLine_init (p : option Product) (count : option Z) : result OrderLine :=
  match validate_field "product" inr p,
        validate_field "product_count" validate_product_count count with
  | inr p', inr c => inr (mkOrderLine p' c)
  | r1, r2 => inl (ValidationError "OrderLine" (field_errors r1 ++ field_errors r2))
  end.

(** [Order()]: both fields take their defaults, and pydantic copies a default
    for each new instance. *)
Definition Order_init : Order := mkOrder [] 0.

(** ** Equality

    None of the models overrides [__eq__], so [==] is [BaseModel.__eq__],
    [self.dict() == other.dict()]: [dict()] turns an instance into a
    dictionary from field names to values, nested models included, and two
    dictionaries are equal when they have the same keys with equal values. *)

#[local] Unset Elimination Schemes.
Inductive pyval :=
| PyInt (z : Z)
| PyDict (items : list (string * pyval)).
#[local] Set Elimination Schemes.

Fixpoint dict_get (key : string) (items : list (string * pyval)) : option pyval :=
  match items with
  | [] => None
  | (k, v) :: items' => if String.eqb k key then Some v else dict_get key items'
  end.

Fixpoint pyval_eqb (a b : pyval) : bool :=
  match a, b with
  | PyInt x, PyInt y => x =? y
  | PyDict xs, PyDict ys =>
      Nat.eqb (length xs) (length ys) &&
      (fix all_items (l : list (string * pyval)) : bool :=
         match l with
         | [] => true
         | (k, v) :: l' =>
             match dict_get k ys with
             | Some w => pyval_eqb v w && all_items l'
             | None => false
             end
         end) xs
  | _, _ => false
  end.

Definition Product_dict (p : Product) : pyval :=
  PyDict [("product_number", PyInt (product_number p)); ("price", PyInt (price p))].

Definition OrderLine_dict (l : OrderLine) : pyval :=
  PyDict [("product", Product_dict (product l));
          ("product_count", PyInt (product_count l))].

Definition Product_eqb (a b : Product) : bool :=
  pyval_eqb (Product_dict a) (Product_dict b).

Definition OrderLine_eqb (a b : OrderLine) : bool :=
  pyval_eqb (OrderLine_dict a) (OrderLine_dict b).

(** ** The monad of the aggregate's methods

    A method receives [self], may raise, and leaves [self] in some state
    either way. *)

Definition M (A : Type) : Type := Order -> result A * Order.

Definition M_ret {A} (a : A) : M A := fun self => (inr a, self).

Definition M_bind {A B} (f : A -> M B) (m : M A) : M B :=
  fun self =>
    match m self with
    | (inl e, self') => (inl e, self')
    | (inr a, self') => f a self'
    end.

#[global] Instance M_MRet : MRet M := @M_ret.
#[global] Instance M_MBind : MBind M := @M_bind.

Definition lift {A} (r : result A) : M A := fun self => (r, self).

(** [list.remove(x)]: drops the first item that is [==] to [x]; [None] stands
    for the [ValueError] of an [x] that is not in the list. *)
Fixpoint list_remove (x : OrderLine) (l : list OrderLine) : option (list OrderLine) :=
  match l with
  | [] => None
  | item :: l' =>
      if OrderLine_eqb item x then Some l'
      else match list_remove x l' with
           | Some r => Some (item :: r)
           | None => None
           end
  end.

Definition order_lines_append (x : OrderLine) : M unit :=
  fun self => (inr tt, mkOrder (order_lines self ++ [x]) (overall_price self)).

Definition order_lines_remove (x : OrderLine) : M unit :=
  fun self =>
    match list_remove x (order_lines self) with
    | Some l => (inr tt, mkOrder l (overall_price self))
    | None => (inl (ValueError "list.remove(x): x not in list"), self)
    end.

Definition overall_price_add (d : Z) : M unit :=
  fun self => (inr tt, mkOrder (order_lines self) (overall_price self + d)).

Definition overall_price_sub (d : Z) : M unit :=
  fun self => (inr tt, mkOrder (order_lines self) (overall_price self - d)).

(** ** Order.add_order_line *)

(** The [for] loop over [enumerate(self.order_lines)]: [rest] is what is
    still to be visited.  The first line with the product number of
    [order_line] ends the loop by [return]; the code after the loop runs when
    no line matched. *)
Fixpoint add_order_line_loop (order_line : OrderLine) (rest : list OrderLine) : M unit :=
  match rest with
  | existing_order_line :: rest' =>
      if product_number (product order_line)
         =? product_number (product existing_order_line)
      then
        p ← lift (Product_init
                     (Some (product_number (product existing_order_line)))
                     (Some (price (product existing_order_line))));
        merged ← lift (OrderLine_init (Some p)
                          (Some (product_count existing_order_line
                                 + product_count order_line)));
        order_lines_append merged ;;
        order_lines_remove existing_order_line ;;
        overall_price_add (product_count order_line * price (product order_line))
      else add_order_line_loop order_line rest'
  | [] =>
      order_lines_append order_line ;;
      overall_price_add (product_count order_line * price (product order_line))
  end.

Definition add_order_line (order_line : OrderLine) : M unit :=
  fun self => add_order_line_loop order_line (order_lines self) self.

(** ** Order.remove_order_line *)

Fixpoint remove_order_line_loop (pn : Z) (rest : list OrderLine) : M unit :=
  match rest with
  | existing_order_line :: rest' =>
      if pn =? product_number (product existing_order_line) then
        order_lines_remove existing_order_line ;;
        overall_price_sub (product_count existing_order_line
                           * price (product existing_order_line))
      else remove_order_line_loop pn rest'
  | [] => mret tt
  end.

Definition remove_order_line (pn : Z) : M unit :=
  fun self => remove_order_line_loop pn (order_lines self) self.

(** ** Sequences of calls *)

Inductive call :=
| AddOrderLine (order_line : OrderLine)
| RemoveOrderLine (pn : Z).

Definition exec_call (c : call) : M unit :=
  match c with
  | AddOrderLine order_line => add_order_line order_line
  | RemoveOrderLine pn => remove_order_line pn
  end.

(** Calls run one after the other; an exception ends the run. *)
Fixpoint exec_calls (cs : list call) : M unit :=
  match cs with
  | [] => mret tt
  | c :: cs' => exec_call c ;; exec_calls cs'
  end.

(** The sum the aggregate is meant to keep [overall_price] equal to. *)
Definition line_price (l : OrderLine) : Z := product_count l * price (product l).

Definition lines_total (l : list OrderLine) : Z :=
  foldr (fun x acc => line_price x + acc) 0 l.


(** ** Instances as objects: attribute assignment

    The records above are the values an instance holds.  Assignment to an
    attribute needs the instances themselves: a store of objects, each with
    its class and its attributes, where an attribute holds an integer or a
    reference to another object.  [BaseModel.__setattr__] consults the
    [Config] of the object's class, which is looked up along the base
    classes. *)

Module Objects.

Inductive class :=
| ClsBaseModel
| ClsValueObject
| ClsEntity
| ClsAggregateRoot
| ClsOrder
| ClsProduct
| ClsOrderLine.

Definition class_name (c : class) : string :=
  match c with
  | ClsBaseModel => "BaseModel"
  | ClsValueObject => "ValueObject"
  | ClsEntity => "Entity"
  | ClsAggregateRoot => "AggregateRoot"
  | ClsOrder => "Order"
  | ClsProduct => "Product"
  | ClsOrderLine => "OrderLine"
  end.

(** [class C(B)] *)
Definition base (c : class) : option class :=
  match c with
  | ClsBaseModel => None
  | ClsValueObject => Some ClsBaseModel
  | ClsEntity => Some ClsBaseModel
  | ClsAggregateRoot => Some ClsEntity
  | ClsOrder => Some ClsAggregateRoot
  | ClsProduct => Some ClsEntity
  | ClsOrderLine => Some ClsValueObject
  end.

(** The [frozen] option a class sets in its own [Config], if it has one;
    [BaseModel] has [frozen = False]. *)
Definition own_frozen (c : class) : option bool :=
  match c with
  | ClsBaseModel => Some false
  | ClsValueObject => Some true
  | _ => None
  end.

(** The class and its bases, nearest first; no chain is longer than
    [depth]. *)
Fixpoint ancestors (depth : nat) (c : class) : list class :=
  match depth with
  | O => [c]
  | S d => c :: match base c with
                | Some b => ancestors d b
                | None => []
                end
  end.

Definition config_frozen (c : class) : bool :=
  default false (list_find is_Some (own_frozen <$> ancestors 4 c) ≫= snd).

Definition class_fields (c : class) : list string :=
  match c with
  | ClsOrder => ["order_lines"; "overall_price"]
  | ClsProduct => ["product_number"; "price"]
  | ClsOrderLine => ["product"; "product_count"]
  | _ => []
  end.

Definition addr := positive.

Inductive value :=
| VInt (z : Z)
| VRef (a : addr)
| VList (items : list addr).

Record object := mkObject {
  obj_class : class;
  obj_attrs : gmap string value
}.

Abbreviation store := (gmap addr object).

Definition getattr (a : addr) (name : string) (h : store) : option value :=
  h !! a ≫= fun o => obj_attrs o !! name.

Definition quote : string := String (Ascii.ascii_of_nat 34) EmptyString.

Definition immutable_message (c : class) : string :=
  quote +:+ class_name c +:+ quote
  +:+ " is immutable and does not support item assignment".

(** [BaseModel.__setattr__]: an unknown field is a [ValueError], a field of
    a frozen model a [TypeError]; otherwise the attribute is set (the
    models do not ask for validation on assignment). *)
Definition setattr (a : addr) (name : string) (v : value) (h : store)
  : result unit * store :=
  match h !! a with
  | None => (inl (ValueError "no such object"), h)
  | Some o =>
      if negb (bool_decide (name ∈ class_fields (obj_class o))) then
        (inl (ValueError (quote +:+ class_name (obj_class o) +:+ quote
                          +:+ " object has no field " +:+ quote +:+ name +:+ quote)), h)
      else if config_frozen (obj_class o) then
        (inl (TypeError (immutable_message (obj_class o))), h)
      else
        (inr tt, <[a := mkObject (obj_class o) (<[name := v]> (obj_attrs o))]> h)
  end.

End Objects.
Import Objects.

(** ** Instances that went through validation *)

Definition constructed_Product (p : Product) : Prop :=
  Product_init (Some (product_number p)) (Some (price p)) = inr p.

Definition constructed_OrderLine (l : OrderLine) : Prop :=
  constructed_Product (product l) /\
  OrderLine_init (Some (product l)) (Some (product_count l)) = inr l.

Definition constructed_call (c : call) : Prop :=
  match c with
  | AddOrderLine order_line => constructed_OrderLine order_line
  | RemoveOrderLine _ => True
  end.

(** What the validators leave through, as ranges. *)
Definition valid_Product (p : Product) : Prop :=
  0 <= product_number p <= 999999 /\ 1 <= price p.

Definition valid_OrderLine (l : OrderLine) : Prop :=
  valid_Product (product l) /\ 1 <= product_count l.

(** The messages of the three validators. *)
Definition product_number_message (value : Z) : string :=
  "product_number is " +:+ pretty value +:+ " but must be between 0 and 999999.".

Definition price_message (value : Z) : string :=
  "price is " +:+ pretty value +:+ " but must be at least 1.".

Definition product_count_message (value : Z) : string :=
  "product_count is " +:+ pretty value +:+ " but must be greater than 0.".

(** An error line that reports a value against the bound of its field. *)
Inductive range_report : error_item -> Prop :=
| report_product_number value :
    range_report (ErrorItem "product_number" (product_number_message value) "value_error")
| report_price value :
    range_report (ErrorItem "price" (price_message value) "value_error")
| report_product_count value :
    range_report (ErrorItem "product_count" (product_count_message value) "value_error").

(** The error lines a [Product] construction may carry, by cause. *)
Inductive Product_error (pn pr : option Z) : error_item -> Prop :=
| number_out_of_range n :
    pn = Some n -> n < 0 \/ 999999 < n ->
    Product_error pn pr
      (ErrorItem "product_number" (product_number_message n) "value_error")
| number_missing :
    pn = None ->
    Product_error pn pr (ErrorItem "product_number" "field required" "value_error.missing")
| price_out_of_range q :
    pr = Some q -> q < 1 ->
    Product_error pn pr (ErrorItem "price" (price_message q) "value_error")
| price_missing :
    pr = None ->
    Product_error pn pr (ErrorItem "price" "field required" "value_error.missing").

Inductive OrderLine_error (p : option Product) (count : option Z) : error_item -> Prop :=
| product_missing :
    p = None ->
    OrderLine_error p count (ErrorItem "product" "field required" "value_error.missing")
| count_out_of_range k :
    count = Some k -> k < 1 ->
    OrderLine_error p count
      (ErrorItem "product_count" (product_count_message k) "value_error")
| count_missing :
    count = None ->
    OrderLine_error p count
      (ErrorItem "product_count" "field required" "value_error.missing").

(** The product number a line is filed under. *)
Definition line_number (l : OrderLine) : Z := product_number (product l).

(** No line of [l] is for product number [n]. *)
Definition no_line_for (n : Z) (l : list OrderLine) : Prop :=
  Forall (fun x => line_number x <> n) l.

(** The line [add_order_line] builds when [order_line] meets [existing]. *)
Definition merged_line (existing order_line : OrderLine) : OrderLine :=
  mkOrderLine (mkProduct (product_number (product existing)) (price (product existing)))
              (product_count existing + product_count order_line).

(** The product number a call is about. *)
Definition call_number (c : call) : Z :=
  match c with
  | AddOrderLine order_line => line_number order_line
  | RemoveOrderLine pn => pn
  end.

(** What every state of an order satisfies: its lines passed validation and
    no two of them are for the same product. *)
Definition order_inv (self : Order) : Prop :=
  Forall valid_OrderLine (order_lines self) /\
  NoDup (line_number <$> order_lines self).

(** The states an order goes through: from [Order()], by calls whose
    [OrderLine] arguments went through validation. *)
Definition reachable (self : Order) : Prop :=
  exists cs, Forall constructed_call cs /\ exec_calls cs Order_init = (inr tt, self).

(** The first line of [l] for product number [n]: the line both methods
    stop their scan at. *)
Definition line_for (n : Z) (l : list OrderLine) : option OrderLine :=
  List.find (fun x => line_number x =? n) l.

(** [l] without its first line for product number [n]. *)
Fixpoint without_first (n : Z) (l : list OrderLine) : list OrderLine :=
  match l with
  | [] => []
  | x :: l' => if line_number x =? n then l' else x :: without_first n l'
  end.

(** The units of product number [n] that the lines of [l] hold. *)
Definition quantity (n : Z) (l : list OrderLine) : Z :=
  foldr (fun x acc => if line_number x =? n then product_count x + acc else acc) 0 l.

(** A call that, when it adds a line, quotes the catalog's price for the
    line's product. *)
Definition quotes (catalog : Z -> Z) (c : call) : Prop :=
  match c with
  | AddOrderLine order_line =>
      price (product order_line) = catalog (line_number order_line)
  | RemoveOrderLine _ => True
  end.

(** The units of product number [n] that a call leaves on the order, given
    the units [acc] that were there: an added line for [n] brings its count,
    a removal of [n] takes everything. *)
Definition call_units (n : Z) (acc : Z) (c : call) : Z :=
  match c with
  | AddOrderLine order_line =>
      if line_number order_line =? n then acc + product_count order_line else acc
  | RemoveOrderLine pn => if pn =? n then 0 else acc
  end.

(** The counts added for product number [n] by the calls [cs] since [n] was
    last removed. *)
Definition units_added (n : Z) (cs : list call) : Z :=
  fold_left (call_units n) cs 0.

(** * Validation *)

Section Validators.

Lemma validate_product_number_ok n :
  0 <= n <= 999999 -> validate_product_number n = inr n.
Proof.
  intros Hn. unfold validate_product_number.
  destruct (Z.ltb_spec n 0); [lia|].
  rewrite Z.gtb_ltb. destruct (Z.ltb_spec 999999 n); [lia|]. reflexivity.
Qed.

Lemma validate_product_number_err n :
  n < 0 \/ 999999 < n ->
  validate_product_number n = inl (ValueError (product_number_message n)).
Proof.
  intros Hn. unfold validate_product_number. rewrite Z.gtb_ltb.
  destruct (Z.ltb_spec n 0); [reflexivity|].
  destruct (Z.ltb_spec 999999 n); [reflexivity|lia].
Qed.

Lemma validate_price_ok q : 1 <= q -> validate_price q = inr q.
Proof.
  intros Hq. unfold validate_price.
  destruct (Z.ltb_spec q 1); [lia|reflexivity].
Qed.

Lemma validate_price_err q :
  q < 1 -> validate_price q = inl (ValueError (price_message q)).
Proof.
  intros Hq. unfold validate_price.
  destruct (Z.ltb_spec q 1); [reflexivity|lia].
Qed.

Lemma validate_product_count_ok k : 1 <= k -> validate_product_count k = inr k.
Proof.
  intros Hk. unfold validate_product_count.
  destruct (Z.leb_spec k 0); [lia|reflexivity].
Qed.

Lemma validate_product_count_err k :
  k < 1 -> validate_product_count k = inl (ValueError (product_count_message k)).
Proof.
  intros Hk. unfold validate_product_count.
  destruct (Z.leb_spec k 0); [reflexivity|lia].
Qed.

Lemma Product_init_ok n q :
  0 <= n <= 999999 -> 1 <= q -> Product_init (Some n) (Some q) = inr (mkProduct n q).
Proof.
  intros Hn Hq. unfold Product_init, validate_field.
  rewrite validate_product_number_ok, validate_price_ok by assumption.
  reflexivity.
Qed.

Lemma OrderLine_init_ok p k :
  1 <= k -> OrderLine_init (Some p) (Some k) = inr (mkOrderLine p k).
Proof.
  intros Hk. unfold OrderLine_init, validate_field.
  rewrite validate_product_count_ok by assumption. reflexivity.
Qed.

(** Settles one [it ∈ errors <-> cause] goal over an explicit error list. *)
Ltac error_lines :=
  intros it; split;
  [ rewrite ?elem_of_cons, elem_of_nil; intros H;
    repeat (destruct H as [->|H]); try contradiction;
    first [ eapply number_out_of_range; [reflexivity|lia]
          | eapply price_out_of_range; [reflexivity|lia]
          | eapply count_out_of_range; [reflexivity|lia]
          | now constructor ]
  | intros H; inversion H; simplify_eq; try lia;
    rewrite ?elem_of_cons; auto ].

(** The outcome of a [Product] construction, in full. *)
Lemma Product_init_cases pn pr :
  (exists n q, pn = Some n /\ pr = Some q /\ 0 <= n <= 999999 /\ 1 <= q /\
     Product_init pn pr = inr (mkProduct n q)) \/
  (exists errors, Product_init pn pr = inl (ValidationError "Product" errors) /\
     errors <> [] /\ forall it, it ∈ errors <-> Product_error pn pr it).
Proof.
  unfold Product_init, validate_field.
  destruct pn as [n|]; [destruct (decide (0 <= n <= 999999))|];
    (destruct pr as [q|]; [destruct (decide (1 <= q))|]);
    rewrite ?validate_product_number_ok, ?validate_product_number_err,
      ?validate_price_ok, ?validate_price_err by lia;
    try (left; exists n, q; now auto);
    right; (eexists; split; [reflexivity|]; cbn; split; [discriminate|]);
    error_lines.
Qed.

Lemma OrderLine_init_cases p count :
  (exists p' k, p = Some p' /\ count = Some k /\ 1 <= k /\
     OrderLine_init p count = inr (mkOrderLine p' k)) \/
  (exists errors, OrderLine_init p count = inl (ValidationError "OrderLine" errors) /\
     errors <> [] /\ forall it, it ∈ errors <-> OrderLine_error p count it).
Proof.
  unfold OrderLine_init, validate_field.
  destruct p as [p'|];
    (destruct count as [k|]; [destruct (decide (1 <= k))|]);
    rewrite ?validate_product_count_ok, ?validate_product_count_err by lia;
    try (left; exists p', k; now auto);
    right; (eexists; split; [reflexivity|]; cbn; split; [discriminate|]);
    error_lines.
Qed.

Lemma constructed_Product_valid p : constructed_Product p <-> valid_Product p.
Proof.
  unfold constructed_Product, valid_Product. destruct p as [n q].
  cbn [product_number price]. split.
  - intros H.
    destruct (Product_init_cases (Some n) (Some q))
      as [(n' & q' & [= <-] & [= <-] & Hn & Hq & _)|(errors & He & _)]; [auto|].
    rewrite He in H. discriminate.
  - intros [Hn Hq]. now apply Product_init_ok.
Qed.

Lemma constructed_OrderLine_valid l : constructed_OrderLine l <-> valid_OrderLine l.
Proof.
  unfold constructed_OrderLine, valid_OrderLine.
  rewrite constructed_Product_valid. destruct l as [p k].
  cbn [product product_count]. split.
  - intros [Hp H]. split; [assumption|].
    destruct (OrderLine_init_cases (Some p) (Some k))
      as [(p' & k' & [= <-] & [= <-] & Hk & _)|(errors & He & _)]; [auto|].
    rewrite He in H. discriminate.
  - intros [Hp Hk]. split; [assumption|]. now apply OrderLine_init_ok.
Qed.

End Validators.

(** * Equality of instances *)

Section Equality.

Lemma Product_eqb_fields a b :
  Product_eqb a b = true <->
  product_number a = product_number b /\ price a = price b.
Proof.
  destruct a as [n q], b as [n' q']. unfold Product_eqb. cbn.
  rewrite !andb_true_r, andb_true_iff, !Z.eqb_eq. tauto.
Qed.

Lemma OrderLine_eqb_eq a b : OrderLine_eqb a b = true <-> a = b.
Proof.
  destruct a as [[n q] k], b as [[n' q'] k']. unfold OrderLine_eqb. cbn.
  rewrite !andb_true_r, !andb_true_iff, !Z.eqb_eq. split.
  - intros [[-> ->] ->]. reflexivity.
  - intros [= -> -> ->]. auto.
Qed.

Lemma OrderLine_eqb_refl a : OrderLine_eqb a a = true.
Proof. now apply OrderLine_eqb_eq. Qed.

End Equality.

(** * The aggregate's methods *)

Section Methods.

Lemma no_line_for_app n l1 l2 :
  no_line_for n (l1 ++ l2) <-> no_line_for n l1 /\ no_line_for n l2.
Proof. apply Forall_app. Qed.

(** A scan for [n] either finds nothing or stops at a first line. *)
Lemma first_line_for n l :
  no_line_for n l \/
  exists l1 e l2, l = l1 ++ e :: l2 /\ no_line_for n l1 /\ line_number e = n.
Proof.
  induction l as [|x l IH].
  - left. constructor.
  - destruct (decide (line_number x = n)) as [Hx|Hx].
    + right. exists [], x, l. repeat split; [constructor|assumption].
    + destruct IH as [IH|(l1 & e & l2 & -> & H1 & He)].
      * left. now constructor.
      * right. exists (x :: l1), e, l2. repeat split; [now constructor|assumption].
Qed.

(** [list.remove] takes the first line for the product out: the lines
    before it are for other products, so none of them is [==] to it. *)
Lemma list_remove_first l1 e l2 :
  no_line_for (line_number e) l1 ->
  list_remove e (l1 ++ e :: l2) = Some (l1 ++ l2).
Proof.
  induction 1 as [|x l1 Hx _ IH]; cbn [app list_remove].
  - now rewrite OrderLine_eqb_refl.
  - destruct (OrderLine_eqb x e) eqn:Heq.
    + apply OrderLine_eqb_eq in Heq. now subst.
    + now rewrite IH.
Qed.

Lemma add_order_line_loop_skip order_line l1 rest self :
  no_line_for (line_number order_line) l1 ->
  add_order_line_loop order_line (l1 ++ rest) self
  = add_order_line_loop order_line rest self.
Proof.
  induction 1 as [|x l1 Hx _ IH]; [reflexivity|].
  cbn [app add_order_line_loop]. unfold line_number in Hx.
  destruct (Z.eqb_spec (product_number (product order_line))
                       (product_number (product x))); [congruence|assumption].
Qed.

Lemma remove_order_line_loop_skip n l1 rest self :
  no_line_for n l1 ->
  remove_order_line_loop n (l1 ++ rest) self = remove_order_line_loop n rest self.
Proof.
  induction 1 as [|x l1 Hx _ IH]; [reflexivity|].
  cbn [app remove_order_line_loop]. unfold line_number in Hx.
  destruct (Z.eqb_spec n (product_number (product x))); [congruence|assumption].
Qed.

(** No line for the product: the line is appended as it is. *)
Lemma add_order_line_absent order_line self :
  no_line_for (line_number order_line) (order_lines self) ->
  add_order_line order_line self
  = (inr tt, mkOrder (order_lines self ++ [order_line])
                     (overall_price self + line_price order_line)).
Proof.
  intros H. unfold add_order_line.
  rewrite <- (app_nil_r (order_lines self)) at 1.
  rewrite add_order_line_loop_skip by assumption. reflexivity.
Qed.

(** A first line [e] for the product, and the two constructions pass: [e]
    leaves its place and the merged line goes to the end. *)
Lemma add_order_line_merge order_line self l1 e l2 :
  order_lines self = l1 ++ e :: l2 ->
  no_line_for (line_number order_line) l1 ->
  line_number e = line_number order_line ->
  valid_Product (product e) ->
  1 <= product_count e + product_count order_line ->
  add_order_line order_line self
  = (inr tt, mkOrder (l1 ++ l2 ++ [merged_line e order_line])
                     (overall_price self + line_price order_line)).
Proof.
  intros Hl H1 He [Hn Hq] Hk. unfold add_order_line.
  rewrite Hl, add_order_line_loop_skip by assumption.
  cbn [add_order_line_loop]. unfold line_number in He. rewrite <- He, Z.eqb_refl.
  unfold mbind, M_MBind, M_bind, lift.
  rewrite Product_init_ok, OrderLine_init_ok by assumption.
  unfold order_lines_append, order_lines_remove, overall_price_add.
  cbn [order_lines overall_price]. rewrite Hl, <- app_assoc. cbn [app].
  rewrite list_remove_first by (unfold line_number; now rewrite He).
  reflexivity.
Qed.

(** A first line for the product, and a construction fails: the exception
    leaves before the list is touched. *)
Lemma add_order_line_raises order_line self l1 e l2 :
  order_lines self = l1 ++ e :: l2 ->
  no_line_for (line_number order_line) l1 ->
  line_number e = line_number order_line ->
  ~ (valid_Product (product e) /\ 1 <= product_count e + product_count order_line) ->
  exists ex, add_order_line order_line self = (inl ex, self).
Proof.
  intros Hl H1 He Hbad. unfold add_order_line.
  rewrite Hl, add_order_line_loop_skip by assumption.
  cbn [add_order_line_loop]. unfold line_number in He. rewrite <- He, Z.eqb_refl.
  unfold mbind, M_MBind, M_bind, lift.
  destruct (Product_init_cases (Some (product_number (product e)))
                               (Some (price (product e))))
    as [(n & q & [= <-] & [= <-] & Hn & Hq & ->)|(errors & -> & _)]; [|eauto].
  destruct (OrderLine_init_cases
              (Some (mkProduct (product_number (product e)) (price (product e))))
              (Some (product_count e + product_count order_line)))
    as [(p' & k & _ & [= <-] & Hk & _)|(errors & -> & _)]; [|eauto].
  exfalso. apply Hbad. unfold valid_Product. auto.
Qed.

Lemma remove_order_line_absent n self :
  no_line_for n (order_lines self) -> remove_order_line n self = (inr tt, self).
Proof.
  intros H. unfold remove_order_line.
  rewrite <- (app_nil_r (order_lines self)) at 1.
  rewrite remove_order_line_loop_skip by assumption. reflexivity.
Qed.

Lemma remove_order_line_found n self l1 e l2 :
  order_lines self = l1 ++ e :: l2 ->
  no_line_for n l1 ->
  line_number e = n ->
  remove_order_line n self
  = (inr tt, mkOrder (l1 ++ l2) (overall_price self - line_price e)).
Proof.
  intros Hl H1 He. unfold remove_order_line.
  rewrite Hl, remove_order_line_loop_skip by assumption.
  cbn [remove_order_line_loop]. unfold line_number in He. rewrite He, Z.eqb_refl.
  unfold mbind, M_MBind, M_bind, order_lines_remove, overall_price_sub.
  rewrite Hl, list_remove_first by (unfold line_number; now rewrite He).
  reflexivity.
Qed.

End Methods.

(** * Construction *)

(** C4, the claim as it stands fails: [Product(product_number=123456)], the
    construction the notebook itself runs, fails with the single error line
    [price: field required], which reports no value and no bound.  Hence not
    every failing construction carries an error line that names an offending
    value and the allowed bound. *)
Lemma missing_field_reports_no_range :
  ~ (forall pn pr e,
       Product_init pn pr = inl e ->
       exists errors,
         e = ValidationError "Product" errors /\ Exists range_report errors).
Proof.
  intros H.
  destruct (H (Some 123456) None _ eq_refl) as (errors & [= <-] & Hex).
  apply Exists_cons in Hex as [Hit|Hex]; [|now apply Exists_nil in Hex].
  inversion Hit.
Qed.

(** C4, amended: a [Product] construction returns an instance exactly when
    both fields are supplied with [product_number] in [0, 999999] and
    [price >= 1], and the instance then holds the supplied values; an
    [OrderLine] construction (with any product) returns one exactly when
    [product_count] is supplied and [>= 1].  Every other construction raises
    a [ValidationError] and hands out no instance; its error lines are
    exactly these: for each supplied out-of-range field a line naming the
    field, the offending value and the bound, and for each missing field the
    line [field required]. *)
Theorem construction_validation :
  (forall pn pr,
     match Product_init pn pr with
     | inr p =>
         pn = Some (product_number p) /\ pr = Some (price p) /\
         0 <= product_number p <= 999999 /\ 1 <= price p
     | inl e =>
         ~ (exists n q, pn = Some n /\ pr = Some q /\ 0 <= n <= 999999 /\ 1 <= q) /\
         exists errors,
           e = ValidationError "Product" errors /\ errors <> [] /\
           forall it, it ∈ errors <-> Product_error pn pr it
     end) /\
  (forall p count,
     match OrderLine_init p count with
     | inr l =>
         p = Some (product l) /\ count = Some (product_count l) /\
         1 <= product_count l
     | inl e =>
         ~ (exists p' k, p = Some p' /\ count = Some k /\ 1 <= k) /\
         exists errors,
           e = ValidationError "OrderLine" errors /\ errors <> [] /\
           forall it, it ∈ errors <-> OrderLine_error p count it
     end).
Proof.
  split.
  - intros pn pr.
    destruct (Product_init_cases pn pr)
      as [(n & q & -> & -> & Hn & Hq & ->)|(errors & -> & Hne & Herr)].
    + cbn. auto.
    + split; [|eauto].
      intros (n & q & -> & -> & Hn & Hq).
      destruct errors as [|it errors]; [congruence|].
      assert (Hit : Product_error (Some n) (Some q) it) by (apply Herr; left).
      inversion Hit; simplify_eq; lia.
  - intros p count.
    destruct (OrderLine_init_cases p count)
      as [(p' & k & -> & -> & Hk & ->)|(errors & -> & Hne & Herr)].
    + cbn. auto.
    + split; [|eauto].
      intros (p' & k & -> & -> & Hk).
      destruct errors as [|it errors]; [congruence|].
      assert (Hit : OrderLine_error (Some p') (Some k) it) by (apply Herr; left).
      inversion Hit; simplify_eq; lia.
Qed.

(** * Equality of products *)

(** C9, the claim as it stands fails: two constructed products with the same
    [product_number] and different prices are not equal. *)
Lemma Product_equality_not_by_number :
  ~ (forall a b,
       constructed_Product a -> constructed_Product b ->
       product_number a = product_number b -> Product_eqb a b = true).
Proof.
  intros H.
  specialize (H (mkProduct 1 10) (mkProduct 1 20) eq_refl eq_refl eq_refl).
  vm_compute in H. discriminate H.
Qed.

(** C9, amended: two products are equal under the program's [==] exactly
    when they agree on [product_number] and on [price]; an equal
    [product_number] alone is necessary, not sufficient. *)
Theorem Product_equality_structural a b :
  (Product_eqb a b = true <->
   product_number a = product_number b /\ price a = price b) /\
  (Product_eqb a b = true <-> a = b).
Proof.
  split; [apply Product_eqb_fields|].
  rewrite Product_eqb_fields. destruct a, b; cbn. split.
  - intros [-> ->]. reflexivity.
  - intros [= -> ->]. auto.
Qed.

(** * Invariants of the aggregate *)

Section Invariants.

Lemma lines_total_app l1 l2 : lines_total (l1 ++ l2) = lines_total l1 + lines_total l2.
Proof.
  unfold lines_total. induction l1 as [|x l1 IH]; cbn [app foldr]; [reflexivity|].
  rewrite IH. lia.
Qed.

Lemma lines_total_cons x l : lines_total (x :: l) = line_price x + lines_total l.
Proof. reflexivity. Qed.

Lemma no_line_for_not_elem n l : no_line_for n l <-> n ∉ line_number <$> l.
Proof.
  unfold no_line_for. rewrite Forall_forall, list_elem_of_fmap. split.
  - intros H (x & -> & Hx). now apply (H x).
  - intros H x Hx Hn. apply H. exists x. auto.
Qed.

Lemma NoDup_drop_middle {A} (l1 l2 : list A) x :
  NoDup (l1 ++ x :: l2) -> NoDup (l1 ++ l2).
Proof.
  rewrite !NoDup_app, NoDup_cons. intros (H1 & H2 & H3 & H4).
  repeat split; [assumption| |assumption].
  intros y Hy Hy2. apply (H2 y Hy). rewrite elem_of_cons. now right.
Qed.

Lemma merged_line_valid e order_line :
  valid_OrderLine e -> valid_OrderLine order_line ->
  valid_OrderLine (merged_line e order_line).
Proof.
  unfold valid_OrderLine, valid_Product, merged_line. cbn. lia.
Qed.

Lemma add_order_line_inv order_line self :
  order_inv self -> constructed_OrderLine order_line ->
  exists self', add_order_line order_line self = (inr tt, self') /\ order_inv self'.
Proof.
  intros [Hv Hu] Hl. apply constructed_OrderLine_valid in Hl.
  destruct (first_line_for (line_number order_line) (order_lines self))
    as [Habs|(l1 & e & l2 & Heq & H1 & He)].
  - rewrite add_order_line_absent by assumption. eexists. split; [reflexivity|].
    split; cbn [order_lines].
    + apply Forall_app. split; [assumption|]. now constructor.
    + rewrite fmap_app. apply NoDup_app. split; [assumption|]. split.
      * intros n Hn. cbn. rewrite list_elem_of_singleton. intros ->.
        now apply no_line_for_not_elem in Habs.
      * apply NoDup_singleton.
  - rewrite Heq in Hv, Hu. apply Forall_app in Hv as [Hv1 Hv2].
    apply Forall_cons in Hv2 as [Hve Hv2].
    rewrite (add_order_line_merge order_line self l1 e l2)
      by first [assumption | apply Hve | destruct Hve, Hl; lia].
    eexists. split; [reflexivity|]. split; cbn [order_lines].
    + rewrite !Forall_app. repeat split; try assumption.
      constructor; [|constructor]. now apply merged_line_valid.
    + revert Hu. rewrite !fmap_app, fmap_cons. cbn.
      intros Hu. eapply NoDup_Permutation_proper; [|exact Hu].
      apply Permutation_app_head. symmetry. apply Permutation_cons_append.
Qed.

Lemma remove_order_line_inv n self :
  order_inv self ->
  exists self', remove_order_line n self = (inr tt, self') /\ order_inv self'.
Proof.
  intros [Hv Hu].
  destruct (first_line_for n (order_lines self))
    as [Habs|(l1 & e & l2 & Heq & H1 & He)].
  - rewrite remove_order_line_absent by assumption. eexists. split; [reflexivity|].
    now split.
  - rewrite (remove_order_line_found n self l1 e l2) by assumption.
    eexists. split; [reflexivity|].
    rewrite Heq in Hv, Hu. apply Forall_app in Hv as [Hv1 Hv2].
    apply Forall_cons in Hv2 as [Hve Hv2]. split; cbn [order_lines].
    + now apply Forall_app.
    + revert Hu. rewrite !fmap_app, fmap_cons. apply NoDup_drop_middle.
Qed.

Lemma exec_call_inv c self :
  order_inv self -> constructed_call c ->
  exists self', exec_call c self = (inr tt, self') /\ order_inv self'.
Proof.
  intros Hinv Hc. destruct c as [order_line|n]; cbn.
  - now apply add_order_line_inv.
  - now apply remove_order_line_inv.
Qed.

Lemma exec_calls_inv cs self :
  order_inv self -> Forall constructed_call cs ->
  exists self', exec_calls cs self = (inr tt, self') /\ order_inv self'.
Proof.
  intros Hinv Hcs. revert self Hinv.
  induction Hcs as [|c cs Hc _ IH]; intros self Hinv.
  - exists self. now split.
  - destruct (exec_call_inv c self Hinv Hc) as (self1 & H1 & Hinv1).
    destruct (IH self1 Hinv1) as (self2 & H2 & Hinv2).
    exists self2. split; [|assumption].
    cbn [exec_calls]. unfold mbind, M_MBind, M_bind. now rewrite H1.
Qed.

Lemma exec_calls_app cs1 cs2 self self1 :
  exec_calls cs1 self = (inr tt, self1) ->
  exec_calls (cs1 ++ cs2) self = exec_calls cs2 self1.
Proof.
  revert self. induction cs1 as [|c cs1 IH]; intros self; cbn [app exec_calls].
  - now intros [= ->].
  - unfold mbind, M_MBind, M_bind.
    destruct (exec_call c self) as [[ex|[]] self']; [discriminate|]. apply IH.
Qed.

Lemma order_inv_init : order_inv Order_init.
Proof. split; constructor. Qed.

Lemma reachable_inv self : reachable self -> order_inv self.
Proof.
  intros (cs & Hcs & Hrun).
  destruct (exec_calls_inv cs Order_init order_inv_init Hcs) as (self' & H' & Hinv).
  congruence.
Qed.

End Invariants.

(** * The derived total *)

Section Total.

(** Removal keeps [overall_price] equal to the sum, in any state. *)
Lemma remove_order_line_total n self :
  overall_price self = lines_total (order_lines self) ->
  overall_price (snd (remove_order_line n self))
  = lines_total (order_lines (snd (remove_order_line n self))).
Proof.
  intros Hsum.
  destruct (first_line_for n (order_lines self))
    as [Habs|(l1 & e & l2 & Heq & H1 & He)].
  - now rewrite remove_order_line_absent.
  - rewrite (remove_order_line_found n self l1 e l2) by assumption. cbn.
    rewrite Hsum, Heq, !lines_total_app, lines_total_cons. lia.
Qed.

(** Adding keeps it too, as long as the added line quotes the price of the
    line it is merged into. *)
Lemma add_order_line_total order_line self :
  order_inv self -> constructed_OrderLine order_line ->
  (forall e, e ∈ order_lines self ->
             line_number e = line_number order_line ->
             price (product e) = price (product order_line)) ->
  overall_price self = lines_total (order_lines self) ->
  overall_price (snd (add_order_line order_line self))
  = lines_total (order_lines (snd (add_order_line order_line self))).
Proof.
  intros [Hv _] Hl Hprice Hsum. apply constructed_OrderLine_valid in Hl.
  destruct (first_line_for (line_number order_line) (order_lines self))
    as [Habs|(l1 & e & l2 & Heq & H1 & He)].
  - rewrite add_order_line_absent by assumption. cbn.
    rewrite Hsum, lines_total_app, lines_total_cons. cbn. lia.
  - assert (He' : e ∈ order_lines self)
      by (rewrite Heq, elem_of_app, elem_of_cons; auto).
    assert (Hve : valid_OrderLine e)
      by (revert He'; now apply Forall_forall).
    rewrite (add_order_line_merge order_line self l1 e l2)
      by first [assumption | apply Hve | destruct Hve, Hl; lia].
    cbn. rewrite Hsum, Heq, !lines_total_app, !lines_total_cons.
    unfold line_price, merged_line. cbn.
    rewrite (Hprice e He' He). lia.
Qed.

End Total.

(** C1, evaluated where the code leaves the sum: a line for product 1 at
    price 10, then a line for the same product at price 20, both constructed
    through validation.  The merged line keeps the first price, so the lines
    sum to 2 * 10 = 20, while [overall_price] was raised by 1 * 10 and then
    by 1 * 20 and stands at 30. *)
Theorem overall_price_off_after_price_change :
  let first := mkOrderLine (mkProduct 1 10) 1 in
  let second := mkOrderLine (mkProduct 1 20) 1 in
  Product_init (Some 1) (Some 10) = inr (product first) /\
  OrderLine_init (Some (product first)) (Some 1) = inr first /\
  Product_init (Some 1) (Some 20) = inr (product second) /\
  OrderLine_init (Some (product second)) (Some 1) = inr second /\
  exec_calls [AddOrderLine first; AddOrderLine second] Order_init
  = (inr tt, mkOrder [mkOrderLine (mkProduct 1 10) 2] 30) /\
  lines_total [mkOrderLine (mkProduct 1 10) 2] = 20.
Proof. repeat split. Qed.

(** * Uniqueness of lines per product *)

Section Unique.

Lemma filter_no_line_for n (l : list OrderLine) :
  no_line_for n l -> filter (fun x => line_number x = n) l = [].
Proof.
  induction 1 as [|x l Hx _ IH]; [reflexivity|].
  now rewrite filter_cons_False.
Qed.

Lemma filter_all_for n (l : list OrderLine) :
  Forall (fun x => line_number x = n) l ->
  filter (fun x => line_number x <> n) l = [].
Proof.
  induction 1 as [|x l Hx _ IH]; [reflexivity|].
  rewrite filter_cons_False by tauto. assumption.
Qed.

(** Two lines for one product, added to an order that has none for it. *)
Lemma add_twice_absent a b self :
  constructed_OrderLine a -> constructed_OrderLine b ->
  line_number a = line_number b ->
  no_line_for (line_number a) (order_lines self) ->
  exec_calls [AddOrderLine a; AddOrderLine b] self
  = (inr tt, mkOrder (order_lines self ++ [merged_line a b])
                     (overall_price self + line_price a + line_price b)).
Proof.
  intros Ha Hb Hab Habs.
  apply constructed_OrderLine_valid in Ha, Hb.
  cbn [exec_calls exec_call]. unfold mbind, M_MBind, M_bind.
  rewrite add_order_line_absent by assumption.
  rewrite (add_order_line_merge b _ (order_lines self) a []);
    [ now rewrite app_nil_l
    | reflexivity
    | now rewrite <- Hab
    | assumption
    | apply Ha
    | destruct Ha, Hb; lia ].
Qed.

(** The same, when the order already has a line [e] for the product: the
    one line that results counts [e]'s units as well. *)
Lemma add_twice_present a b self l1 e l2 :
  constructed_OrderLine a -> constructed_OrderLine b ->
  line_number a = line_number b ->
  order_inv self ->
  order_lines self = l1 ++ e :: l2 ->
  line_number e = line_number a ->
  exists self',
    exec_calls [AddOrderLine a; AddOrderLine b] self = (inr tt, self') /\
    filter (fun x => line_number x = line_number a) (order_lines self')
    = [mkOrderLine (mkProduct (line_number a) (price (product e)))
                   (product_count e + product_count a + product_count b)].
Proof.
  intros Ha Hb Hab [Hv Hu] Heq He.
  apply constructed_OrderLine_valid in Ha, Hb.
  rewrite Heq in Hv, Hu. apply Forall_app in Hv as [Hv1 Hv2].
  apply Forall_cons in Hv2 as [Hve Hv2].
  revert Hu. rewrite fmap_app, fmap_cons, NoDup_app, NoDup_cons.
  intros (_ & Hl1 & Hl2 & _).
  assert (H1 : no_line_for (line_number a) l1).
  { apply no_line_for_not_elem. intros Hin. apply (Hl1 _ Hin).
    rewrite He. left. }
  assert (H2 : no_line_for (line_number a) l2).
  { apply no_line_for_not_elem. now rewrite <- He. }
  cbn [exec_calls exec_call]. unfold mbind, M_MBind, M_bind.
  rewrite (add_order_line_merge a self l1 e l2)
    by first [assumption | apply Hve | destruct Hve, Ha; lia].
  rewrite (add_order_line_merge b _ (l1 ++ l2) (merged_line e a) []);
    [ | cbn [order_lines]; now rewrite app_assoc
      | apply no_line_for_app; now rewrite <- Hab
      | unfold line_number, merged_line in *; cbn; congruence
      | apply merged_line_valid; assumption
      | destruct Hve, Ha, Hb; cbn; lia ].
  eexists. split; [reflexivity|]. cbn [order_lines].
  rewrite !filter_app, !filter_no_line_for by assumption.
  rewrite filter_cons_True
    by (unfold line_number, merged_line in *; cbn; congruence).
  unfold merged_line, line_number in *. cbn. now rewrite He.
Qed.

End Unique.

(** C3: when the first line for product number [n] has count [c] and price
    [p], adding a line for [n] with price [q] and count [k] takes that line
    out and puts a line for [n] at price [p] with count [c + k] at the end,
    and raises [overall_price] by exactly [k * q]. *)
Theorem add_order_line_merges self order_line l1 e l2 :
  constructed_OrderLine e -> constructed_OrderLine order_line ->
  order_lines self = l1 ++ e :: l2 ->
  no_line_for (line_number order_line) l1 ->
  product_number (product e) = product_number (product order_line) ->
  add_order_line order_line self
  = (inr tt,
     mkOrder
       (l1 ++ l2 ++
        [mkOrderLine (mkProduct (product_number (product order_line))
                                (price (product e)))
                     (product_count e + product_count order_line)])
       (overall_price self
        + product_count order_line * price (product order_line))).
Proof.
  intros He Hl Heq H1 Hn.
  apply constructed_OrderLine_valid in He, Hl.
  rewrite (add_order_line_merge order_line self l1 e l2)
    by first [assumption | apply He | destruct He, Hl; lia].
  unfold merged_line. now rewrite Hn.
Qed.

Lemma add_order_line_merges_witness :
  add_order_line (mkOrderLine (mkProduct 654321 250) 1)
    (mkOrder [mkOrderLine (mkProduct 123456 100) 1;
              mkOrderLine (mkProduct 654321 200) 2] 500)
  = (inr tt,
     mkOrder ([mkOrderLine (mkProduct 123456 100) 1] ++ [] ++
              [mkOrderLine (mkProduct 654321 200) (2 + 1)])
             (500 + 1 * 250)).
Proof.
  apply (add_order_line_merges
           (mkOrder [mkOrderLine (mkProduct 123456 100) 1;
                     mkOrderLine (mkProduct 654321 200) 2] 500)
           (mkOrderLine (mkProduct 654321 250) 1)
           [mkOrderLine (mkProduct 123456 100) 1]
           (mkOrderLine (mkProduct 654321 200) 2) []).
  - split; reflexivity.
  - split; reflexivity.
  - reflexivity.
  - constructor; [|constructor]. vm_compute. discriminate.
  - reflexivity.
Defined.

(** C6: [remove_order_line n] never raises.  With no line for [n] it leaves
    [order_lines] and [overall_price] as they were; otherwise it takes the
    first line for [n] out and lowers [overall_price] by that line's count
    times its price. *)
Theorem remove_order_line_effect n self :
  (no_line_for n (order_lines self) /\
   remove_order_line n self = (inr tt, self)) \/
  (exists l1 e l2,
     order_lines self = l1 ++ e :: l2 /\
     no_line_for n l1 /\
     product_number (product e) = n /\
     remove_order_line n self
     = (inr tt, mkOrder (l1 ++ l2)
                        (overall_price self
                         - product_count e * price (product e)))).
Proof.
  destruct (first_line_for n (order_lines self))
    as [Habs|(l1 & e & l2 & Heq & H1 & He)].
  - left. split; [assumption|]. now apply remove_order_line_absent.
  - right. exists l1, e, l2. repeat split; try assumption.
    now apply remove_order_line_found.
Qed.

(** C7: in every state an order can reach, a call of [add_order_line] with
    a line that went through validation, or of [remove_order_line] with any
    number, returns without raising, and the state it leaves is reachable
    again.  In particular the two constructions of the merge path pass for
    every line of the order. *)
Theorem methods_never_raise self :
  reachable self ->
  (forall c, constructed_call c ->
     exists self', exec_call c self = (inr tt, self') /\ reachable self') /\
  (forall e order_line,
     e ∈ order_lines self -> constructed_OrderLine order_line ->
     exists p merged,
       Product_init (Some (product_number (product e)))
                    (Some (price (product e))) = inr p /\
       OrderLine_init (Some p)
                      (Some (product_count e + product_count order_line))
       = inr merged).
Proof.
  intros Hreach. pose proof (reachable_inv self Hreach) as Hinv. split.
  - intros c Hc.
    destruct (exec_call_inv c self Hinv Hc) as (self' & Hrun & _).
    exists self'. split; [assumption|].
    destruct Hreach as (cs & Hcs & Hrun0).
    exists (cs ++ [c]). split.
    + apply Forall_app. split; [assumption|]. now constructor.
    + rewrite (exec_calls_app cs _ Order_init self Hrun0).
      cbn [exec_calls]. unfold mbind, M_MBind, M_bind. now rewrite Hrun.
  - intros e order_line He Hl. apply constructed_OrderLine_valid in Hl.
    destruct Hinv as [Hv _].
    assert (Hve : valid_OrderLine e) by (revert He; now apply Forall_forall).
    destruct Hve as [[Hn Hq] Hc], Hl as [_ Hk].
    do 2 eexists. split.
    + now apply Product_init_ok.
    + apply OrderLine_init_ok. lia.
Qed.

Lemma methods_never_raise_witness :
  (forall c, constructed_call c ->
     exists self',
       exec_call c (mkOrder [mkOrderLine (mkProduct 123456 100) 1] 100)
       = (inr tt, self') /\ reachable self') /\
  (forall e order_line,
     e ∈ [mkOrderLine (mkProduct 123456 100) 1] ->
     constructed_OrderLine order_line ->
     exists p merged,
       Product_init (Some (product_number (product e)))
                    (Some (price (product e))) = inr p /\
       OrderLine_init (Some p)
                      (Some (product_count e + product_count order_line))
       = inr merged).
Proof.
  apply (methods_never_raise (mkOrder [mkOrderLine (mkProduct 123456 100) 1] 100)).
  exists [AddOrderLine (mkOrderLine (mkProduct 123456 100) 1)]. split.
  - constructor; [|constructor]. split; reflexivity.
  - reflexivity.
Defined.

(** C8: the scenario of the notebook.  Two lines, (123456, 100) once and
    (654321, 200) twice, give 500; one more (654321, 200) leaves one line
    for 654321 with count 3 and gives 700; removing 123456 gives 600 with
    one line left. *)
Theorem notebook_scenario :
  exists p1 p2 line1 line2 line3 order2 order3 order4,
    Product_init (Some 123456) (Some 100) = inr p1 /\
    Product_init (Some 654321) (Some 200) = inr p2 /\
    OrderLine_init (Some p1) (Some 1) = inr line1 /\
    OrderLine_init (Some p2) (Some 2) = inr line2 /\
    OrderLine_init (Some p2) (Some 1) = inr line3 /\
    exec_calls [AddOrderLine line1; AddOrderLine line2] Order_init
    = (inr tt, order2) /\
    overall_price order2 = 500 /\
    add_order_line line3 order2 = (inr tt, order3) /\
    filter (fun x => line_number x = 654321) (order_lines order3)
    = [mkOrderLine (mkProduct 654321 200) 3] /\
    length (order_lines order3) = 2%nat /\
    overall_price order3 = 700 /\
    remove_order_line 123456 order3 = (inr tt, order4) /\
    overall_price order4 = 600 /\
    order_lines order4 = [mkOrderLine (mkProduct 654321 200) 3].
Proof.
  do 8 eexists. repeat split.
Qed.

(** * Frame *)

Section Frame.

(** What a call does to the list: at most one line leaves, at most one
    line is put at the end, and both are for the product of the call. *)
Lemma exec_call_change c self :
  exists l1 gone l2 added,
    order_lines self = l1 ++ gone ++ l2 /\
    order_lines (snd (exec_call c self)) = l1 ++ l2 ++ added /\
    (length gone <= 1)%nat /\ (length added <= 1)%nat /\
    Forall (fun x => line_number x = call_number c) gone /\
    Forall (fun x => line_number x = call_number c) added.
Proof.
  destruct (first_line_for (call_number c) (order_lines self))
    as [Habs|(l1 & e & l2 & Heq & H1 & He)].
  - (* no line for the product *)
    destruct c as [order_line|n]; cbn [exec_call call_number] in *.
    + rewrite add_order_line_absent by assumption.
      exists (order_lines self), [], [], [order_line]. cbn.
      rewrite app_nil_r. repeat split; auto.
    + rewrite remove_order_line_absent by assumption.
      exists (order_lines self), [], [], []. cbn.
      rewrite !app_nil_r. repeat split; auto.
  - destruct c as [order_line|n]; cbn [exec_call call_number] in *.
    + destruct (decide (valid_Product (product e) /\
                        1 <= product_count e + product_count order_line))
        as [[Hp Hk]|Hbad].
      * rewrite (add_order_line_merge order_line self l1 e l2) by assumption.
        exists l1, [e], l2, [merged_line e order_line]. cbn.
        repeat split; auto.
      * destruct (add_order_line_raises order_line self l1 e l2)
          as (ex & ->); try assumption.
        exists (order_lines self), [], [], []. cbn.
        rewrite !app_nil_r. repeat split; auto.
    + rewrite (remove_order_line_found n self l1 e l2) by assumption.
      exists l1, [e], l2, []. cbn. rewrite app_nil_r. repeat split; auto.
Qed.

End Frame.

(** C10: whatever the state, one call of [add_order_line] or
    [remove_order_line] leaves the lines for every other product number as
    they were, fields and relative order included; of the lines the order
    had, at most one leaves the list, and at most one line is put at its
    end, both for the product number of the call. *)
Theorem calls_leave_other_lines c self :
  filter (fun x => line_number x <> call_number c)
         (order_lines (snd (exec_call c self)))
  = filter (fun x => line_number x <> call_number c) (order_lines self) /\
  exists l1 gone l2 added,
    order_lines self = l1 ++ gone ++ l2 /\
    order_lines (snd (exec_call c self)) = l1 ++ l2 ++ added /\
    (length gone <= 1)%nat /\ (length added <= 1)%nat /\
    Forall (fun x => line_number x = call_number c) gone /\
    Forall (fun x => line_number x = call_number c) added.
Proof.
  pose proof (exec_call_change c self) as Hchange.
  split; [|exact Hchange].
  destruct Hchange as (l1 & gone & l2 & added & -> & -> & _ & _ & Hgone & Hadded).
  rewrite !filter_app.
  rewrite (filter_all_for _ gone), (filter_all_for _ added) by assumption.
  now rewrite app_nil_r.
Qed.

(** * Assignment to attributes *)

Section Assignment.

Lemma OrderLine_config_frozen : config_frozen ClsOrderLine = true.
Proof. reflexivity. Qed.

Lemma Product_config_not_frozen : config_frozen ClsProduct = false.
Proof. reflexivity. Qed.

Lemma setattr_frozen (h : store) a o name v :
  h !! a = Some o ->
  name ∈ class_fields (obj_class o) ->
  config_frozen (obj_class o) = true ->
  setattr a name v h = (inl (TypeError (immutable_message (obj_class o))), h).
Proof.
  intros Ha Hname Hfrozen. unfold setattr.
  now rewrite Ha, bool_decide_true, Hfrozen.
Qed.

Lemma setattr_mutable (h : store) a o name v :
  h !! a = Some o ->
  name ∈ class_fields (obj_class o) ->
  config_frozen (obj_class o) = false ->
  setattr a name v h
  = (inr tt, <[a := mkObject (obj_class o) (<[name := v]> (obj_attrs o))]> h).
Proof.
  intros Ha Hname Hfrozen. unfold setattr.
  now rewrite Ha, bool_decide_true, Hfrozen.
Qed.

End Assignment.

(** C5: for an [OrderLine] instance in any store, assigning any value to
    [product] or [product_count] raises the [TypeError] of a frozen model
    and leaves the store as it was, so every attribute still reads as
    before.  The [Product] instance the line refers to is not frozen:
    assigning to its [price] succeeds, the line's [product] and
    [product_count] still read as before, and the price read through the
    reference is the new one. *)
Theorem OrderLine_is_immutable (h : store) line o name v :
  h !! line = Some o ->
  obj_class o = ClsOrderLine ->
  name = "product" \/ name = "product_count" ->
  (setattr line name v h = (inl (TypeError (immutable_message ClsOrderLine)), h) /\
   forall field,
     getattr line field (snd (setattr line name v h)) = getattr line field h) /\
  (forall pa po q,
     getattr line "product" h = Some (VRef pa) ->
     h !! pa = Some po -> obj_class po = ClsProduct ->
     exists h',
       setattr pa "price" (VInt q) h = (inr tt, h') /\
       getattr pa "price" h' = Some (VInt q) /\
       getattr line "product" h' = Some (VRef pa) /\
       getattr line "product_count" h' = getattr line "product_count" h).
Proof.
  intros Hline Hcls Hname.
  assert (Hset : setattr line name v h
                 = (inl (TypeError (immutable_message ClsOrderLine)), h)).
  { rewrite <- Hcls. apply setattr_frozen; [assumption| |now rewrite Hcls].
    rewrite Hcls. cbn. rewrite !elem_of_cons. destruct Hname; auto. }
  split.
  - split; [assumption|]. intros field. now rewrite Hset.
  - intros pa po q Hprod Hpa Hpcls.
    assert (Hne : pa <> line) by (intros ->; congruence).
    rewrite (setattr_mutable h pa po) by
      first [assumption | rewrite Hpcls; cbn; rewrite !elem_of_cons; auto
            | now rewrite Hpcls].
    eexists. split; [reflexivity|]. unfold getattr in *.
    rewrite lookup_insert_eq, !lookup_insert_ne by assumption. cbn.
    rewrite lookup_insert_eq. auto.
Qed.

Lemma OrderLine_is_immutable_witness :
  let h : store :=
    <[2%positive := mkObject ClsOrderLine
                      (<["product" := VRef 1%positive]>
                         (<["product_count" := VInt 1]> ∅))]>
      (<[1%positive := mkObject ClsProduct
                         (<["product_number" := VInt 123456]>
                            (<["price" := VInt 100]> ∅))]> ∅) in
  (setattr 2%positive "product_count" (VInt 2) h
   = (inl (TypeError (immutable_message ClsOrderLine)), h) /\
   forall field,
     getattr 2%positive field (snd (setattr 2%positive "product_count" (VInt 2) h))
     = getattr 2%positive field h) /\
  (forall pa po q,
     getattr 2%positive "product" h = Some (VRef pa) ->
     h !! pa = Some po -> obj_class po = ClsProduct ->
     exists h',
       setattr pa "price" (VInt q) h = (inr tt, h') /\
       getattr pa "price" h' = Some (VInt q) /\
       getattr 2%positive "product" h' = Some (VRef pa) /\
       getattr 2%positive "product_count" h'
       = getattr 2%positive "product_count" h).
Proof.
  intros h.
  apply (OrderLine_is_immutable h 2%positive
           (mkObject ClsOrderLine
              (<["product" := VRef 1%positive]>
                 (<["product_count" := VInt 1]> ∅)))
           "product_count" (VInt 2)).
  - reflexivity.
  - reflexivity.
  - right. reflexivity.
Defined.

(** * Further properties of the methods *)

Section Scan.

Lemma line_for_absent n l : no_line_for n l -> line_for n l = None.
Proof.
  induction 1 as [|x l Hx _ IH]; [reflexivity|].
  unfold line_for in *. cbn [find].
  destruct (Z.eqb_spec (line_number x) n); [contradiction|assumption].
Qed.

Lemma line_for_first n l1 e l2 :
  no_line_for n l1 -> line_number e = n -> line_for n (l1 ++ e :: l2) = Some e.
Proof.
  intros H1 He. induction H1 as [|x l1 Hx _ IH]; unfold line_for in *; cbn [app find].
  - now rewrite He, Z.eqb_refl.
  - destruct (Z.eqb_spec (line_number x) n); [contradiction|assumption].
Qed.

Lemma without_first_absent n l : no_line_for n l -> without_first n l = l.
Proof.
  induction 1 as [|x l Hx _ IH]; [reflexivity|]. cbn [without_first].
  destruct (Z.eqb_spec (line_number x) n); [contradiction|now rewrite IH].
Qed.

Lemma without_first_first n l1 e l2 :
  no_line_for n l1 -> line_number e = n ->
  without_first n (l1 ++ e :: l2) = l1 ++ l2.
Proof.
  intros H1 He. induction H1 as [|x l1 Hx _ IH]; cbn [app without_first].
  - now rewrite He, Z.eqb_refl.
  - destruct (Z.eqb_spec (line_number x) n); [contradiction|now rewrite IH].
Qed.

Lemma without_first_comm n m l :
  without_first m (without_first n l) = without_first n (without_first m l).
Proof.
  induction l as [|x l IH]; [reflexivity|]. cbn [without_first].
  destruct (Z.eqb_spec (line_number x) n), (Z.eqb_spec (line_number x) m);
    cbn [without_first];
    repeat match goal with
           | |- context [line_number x =? ?k] =>
               destruct (Z.eqb_spec (line_number x) k); try contradiction
           end;
    congruence.
Qed.

Lemma line_for_without_first n m l :
  n <> m -> line_for n (without_first m l) = line_for n l.
Proof.
  intros Hnm. induction l as [|x l IH]; [reflexivity|].
  unfold line_for in *. cbn [without_first find].
  destruct (Z.eqb_spec (line_number x) m), (Z.eqb_spec (line_number x) n);
    try congruence; cbn [find];
    destruct (Z.eqb_spec (line_number x) n); congruence.
Qed.

(** What [remove_order_line] does, in one equation that holds in every
    state. *)
Lemma remove_order_line_run n self :
  remove_order_line n self
  = (inr tt,
     mkOrder (without_first n (order_lines self))
             (overall_price self
              - match line_for n (order_lines self) with
                | Some e => line_price e
                | None => 0
                end)).
Proof.
  destruct (first_line_for n (order_lines self))
    as [Habs|(l1 & e & l2 & Heq & H1 & He)].
  - rewrite remove_order_line_absent, line_for_absent, without_first_absent
      by assumption.
    destruct self; cbn. now rewrite Z.sub_0_r.
  - rewrite (remove_order_line_found n self l1 e l2) by assumption.
    rewrite Heq, line_for_first, without_first_first by assumption. reflexivity.
Qed.

Lemma quantity_app n l1 l2 : quantity n (l1 ++ l2) = quantity n l1 + quantity n l2.
Proof.
  unfold quantity. induction l1 as [|x l1 IH]; cbn [app foldr]; [reflexivity|].
  rewrite IH. destruct (line_number x =? n); lia.
Qed.

Lemma quantity_absent n l : no_line_for n l -> quantity n l = 0.
Proof.
  unfold quantity. induction 1 as [|x l Hx _ IH]; cbn [foldr]; [reflexivity|].
  destruct (Z.eqb_spec (line_number x) n); [contradiction|assumption].
Qed.

Lemma Forall_constructed_valid l :
  Forall constructed_OrderLine l <-> Forall valid_OrderLine l.
Proof. apply Forall_proper; [intros x; apply constructed_OrderLine_valid|reflexivity]. Qed.

(** A failing construction in the merge path, with the exception it raises. *)
Lemma add_order_line_raises_validation order_line self l1 e l2 :
  order_lines self = l1 ++ e :: l2 ->
  no_line_for (line_number order_line) l1 ->
  line_number e = line_number order_line ->
  ~ (valid_Product (product e) /\ 1 <= product_count e + product_count order_line) ->
  exists model errors,
    add_order_line order_line self = (inl (ValidationError model errors), self).
Proof.
  intros Hl H1 He Hbad. unfold add_order_line.
  rewrite Hl, add_order_line_loop_skip by assumption.
  cbn [add_order_line_loop]. unfold line_number in He. rewrite <- He, Z.eqb_refl.
  unfold mbind, M_MBind, M_bind, lift.
  destruct (Product_init_cases (Some (product_number (product e)))
                               (Some (price (product e))))
    as [(n & q & [= <-] & [= <-] & Hn & Hq & ->)|(errors & -> & _)]; [|eauto].
  destruct (OrderLine_init_cases
              (Some (mkProduct (product_number (product e)) (price (product e))))
              (Some (product_count e + product_count order_line)))
    as [(p' & k & _ & [= <-] & Hk & _)|(errors & -> & _)]; [|eauto].
  exfalso. apply Hbad. unfold valid_Product. auto.
Qed.

End Scan.

(** X1: in every state, reachable or not, [remove_order_line] leaves the
    difference between [overall_price] and the sum over the lines as it
    was; in particular it keeps them equal when they were. *)
Theorem remove_order_line_keeps_gap n self :
  overall_price (snd (remove_order_line n self))
  - lines_total (order_lines (snd (remove_order_line n self)))
  = overall_price self - lines_total (order_lines self).
Proof.
  destruct (first_line_for n (order_lines self))
    as [Habs|(l1 & e & l2 & Heq & H1 & He)].
  - now rewrite remove_order_line_absent.
  - rewrite (remove_order_line_found n self l1 e l2) by assumption. cbn.
    rewrite Heq, !lines_total_app, lines_total_cons. lia.
Qed.

(** X2: when the lines of the order went through validation,
    [add_order_line] with a validated line of count [k] and price [q] moves
    the difference between [overall_price] and the sum over the lines by
    [k * (q - p)], where [p] is the price of the line it merges into; with
    no such line the difference stays.  So the sum is kept exactly when the
    added line quotes the price already on the order. *)
Theorem add_order_line_moves_gap order_line self :
  Forall constructed_OrderLine (order_lines self) ->
  constructed_OrderLine order_line ->
  overall_price (snd (add_order_line order_line self))
  - lines_total (order_lines (snd (add_order_line order_line self)))
  = overall_price self - lines_total (order_lines self)
    + match line_for (line_number order_line) (order_lines self) with
      | Some e =>
          product_count order_line
          * (price (product order_line) - price (product e))
      | None => 0
      end.
Proof.
  intros Hv Hl. apply Forall_constructed_valid in Hv.
  apply constructed_OrderLine_valid in Hl.
  destruct (first_line_for (line_number order_line) (order_lines self))
    as [Habs|(l1 & e & l2 & Heq & H1 & He)].
  - rewrite add_order_line_absent, line_for_absent by assumption. cbn.
    rewrite lines_total_app, lines_total_cons. cbn. lia.
  - assert (Hve : valid_OrderLine e).
    { rewrite Heq in Hv. apply Forall_app in Hv as [_ Hv].
      now apply Forall_cons in Hv as [Hve _]. }
    rewrite (add_order_line_merge order_line self l1 e l2)
      by first [assumption | apply Hve | destruct Hve, Hl; lia].
    rewrite Heq, line_for_first by assumption. cbn.
    rewrite !lines_total_app, !lines_total_cons.
    unfold line_price, merged_line. cbn. lia.
Qed.

Lemma add_order_line_moves_gap_witness :
  overall_price
    (snd (add_order_line (mkOrderLine (mkProduct 1 20) 1)
            (mkOrder [mkOrderLine (mkProduct 1 10) 1] 10)))
  - lines_total
      (order_lines
         (snd (add_order_line (mkOrderLine (mkProduct 1 20) 1)
                 (mkOrder [mkOrderLine (mkProduct 1 10) 1] 10))))
  = 10 - lines_total [mkOrderLine (mkProduct 1 10) 1]
    + match line_for 1 [mkOrderLine (mkProduct 1 10) 1] with
      | Some e => 1 * (20 - price (product e))
      | None => 0
      end.
Proof.
  apply (add_order_line_moves_gap (mkOrderLine (mkProduct 1 20) 1)
           (mkOrder [mkOrderLine (mkProduct 1 10) 1] 10)).
  - constructor; [split; reflexivity|constructor].
  - split; reflexivity.
Defined.

Section Catalog.

Variable catalog : Z -> Z.

(** A line that carries the catalog's price for its product. *)
Let priced (x : OrderLine) : Prop := price (product x) = catalog (line_number x).

Lemma exec_call_fixed_prices c self :
  order_inv self ->
  Forall priced (order_lines self) ->
  overall_price self = lines_total (order_lines self) ->
  constructed_call c -> quotes catalog c ->
  exists self',
    exec_call c self = (inr tt, self') /\ order_inv self' /\
    Forall priced (order_lines self') /\
    overall_price self' = lines_total (order_lines self').
Proof.
  intros Hinv Hpr Hsum Hc Hq.
  destruct (exec_call_inv c self Hinv Hc) as (self' & Hrun & Hinv').
  exists self'. split; [assumption|]. split; [assumption|].
  destruct c as [order_line|n]; cbn [exec_call constructed_call quotes] in *.
  - split.
    + destruct (first_line_for (line_number order_line) (order_lines self))
        as [Habs|(l1 & e & l2 & Heq & H1 & He)].
      * rewrite add_order_line_absent in Hrun by assumption.
        injection Hrun as <-. cbn. apply Forall_app. split; [assumption|].
        now constructor.
      * destruct Hinv as [Hv _]. rewrite Heq in Hv, Hpr.
        apply Forall_app in Hv as [_ Hv]. apply Forall_cons in Hv as [Hve _].
        apply Forall_app in Hpr as [Hp1 Hp2]. apply Forall_cons in Hp2 as [Hpe Hp2].
        apply constructed_OrderLine_valid in Hc.
        rewrite (add_order_line_merge order_line self l1 e l2) in Hrun
          by first [assumption | apply Hve | destruct Hve, Hc; lia].
        injection Hrun as <-. cbn. rewrite !Forall_app. repeat split; try assumption.
        constructor; [|constructor]. exact Hpe.
    + replace self' with (snd (add_order_line order_line self)) by now rewrite Hrun.
      apply add_order_line_total; try assumption.
      intros e He Hn. unfold priced in Hpr.
      rewrite Forall_forall in Hpr. rewrite (Hpr e He), Hn. now symmetry.
  - split.
    + rewrite remove_order_line_run in Hrun. injection Hrun as <-. cbn.
      clear -Hpr. induction Hpr as [|x l Hx Hl IH]; cbn [without_first]; [constructor|].
      destruct (line_number x =? n); [assumption|now constructor].
    + replace self' with (snd (remove_order_line n self)) by now rewrite Hrun.
      now apply remove_order_line_total.
Qed.

Lemma exec_calls_fixed_prices cs self :
  order_inv self ->
  Forall priced (order_lines self) ->
  overall_price self = lines_total (order_lines self) ->
  Forall constructed_call cs -> Forall (quotes catalog) cs ->
  exists self',
    exec_calls cs self = (inr tt, self') /\
    overall_price self' = lines_total (order_lines self').
Proof.
  intros Hinv Hpr Hsum Hcs. revert self Hinv Hpr Hsum.
  induction Hcs as [|c cs Hc _ IH]; intros self Hinv Hpr Hsum Hq.
  - exists self. now split.
  - apply Forall_cons in Hq as [Hqc Hq].
    destruct (exec_call_fixed_prices c self Hinv Hpr Hsum Hc Hqc)
      as (self1 & Hrun1 & Hinv1 & Hpr1 & Hsum1).
    destruct (IH self1 Hinv1 Hpr1 Hsum1 Hq) as (self2 & Hrun2 & Hsum2).
    exists self2. split; [|assumption].
    cbn [exec_calls]. unfold mbind, M_MBind, M_bind. now rewrite Hrun1.
Qed.

End Catalog.

(** X3: when every added line went through validation and quotes one fixed
    price per product number, any sequence of [add_order_line] and
    [remove_order_line] calls on a new order runs without raising and ends
    with [overall_price] equal to the sum over the lines. *)
Theorem fixed_prices_keep_sum (catalog : Z -> Z) cs :
  Forall constructed_call cs -> Forall (quotes catalog) cs ->
  exists self,
    exec_calls cs Order_init = (inr tt, self) /\
    overall_price self = lines_total (order_lines self).
Proof.
  intros Hcs Hq.
  apply (exec_calls_fixed_prices catalog cs Order_init);
    first [assumption | apply order_inv_init | constructor | reflexivity].
Qed.

Lemma fixed_prices_keep_sum_witness :
  exists self,
    exec_calls [AddOrderLine (mkOrderLine (mkProduct 123456 100) 1);
                AddOrderLine (mkOrderLine (mkProduct 654321 200) 2);
                AddOrderLine (mkOrderLine (mkProduct 654321 200) 1);
                RemoveOrderLine 123456] Order_init = (inr tt, self) /\
    overall_price self = lines_total (order_lines self).
Proof.
  apply (fixed_prices_keep_sum (fun n => if n =? 123456 then 100 else 200)).
  - repeat (constructor; [first [split; reflexivity | exact I]|]). constructor.
  - repeat (constructor; [first [reflexivity | exact I]|]). constructor.
Defined.

(** X4: adding a line for a product the order has no line for, and then
    removing that product, gives back the very state the order was in:
    the same lines in the same order and the same [overall_price].  This
    needs no validation of the line. *)
Theorem add_then_remove_restores order_line self :
  no_line_for (line_number order_line) (order_lines self) ->
  exec_calls [AddOrderLine order_line; RemoveOrderLine (line_number order_line)] self
  = (inr tt, self).
Proof.
  intros Habs. cbn [exec_calls exec_call]. unfold mbind, M_MBind, M_bind.
  rewrite add_order_line_absent by assumption.
  rewrite (remove_order_line_found _ _ (order_lines self) order_line []);
    [|reflexivity|assumption|reflexivity].
  cbn. destruct self as [l p]; cbn. rewrite app_nil_r. do 2 f_equal. lia.
Qed.

Lemma add_then_remove_restores_witness :
  exec_calls [AddOrderLine (mkOrderLine (mkProduct 654321 200) 2);
              RemoveOrderLine 654321]
    (mkOrder [mkOrderLine (mkProduct 123456 100) 1] 100)
  = (inr tt, mkOrder [mkOrderLine (mkProduct 123456 100) 1] 100).
Proof.
  apply (add_then_remove_restores (mkOrderLine (mkProduct 654321 200) 2)
           (mkOrder [mkOrderLine (mkProduct 123456 100) 1] 100)).
  constructor; [|constructor]. vm_compute. discriminate.
Defined.

(** X5: on an order with at most one line per product number,
    [remove_order_line n] leaves no line for [n] and no unit of it, and a
    second [remove_order_line n] changes nothing. *)
Theorem remove_order_line_clears n self :
  NoDup (line_number <$> order_lines self) ->
  no_line_for n (order_lines (snd (remove_order_line n self))) /\
  quantity n (order_lines (snd (remove_order_line n self))) = 0 /\
  remove_order_line n (snd (remove_order_line n self))
  = (inr tt, snd (remove_order_line n self)).
Proof.
  intros Hu.
  assert (Hgone : no_line_for n (order_lines (snd (remove_order_line n self)))).
  { destruct (first_line_for n (order_lines self))
      as [Habs|(l1 & e & l2 & Heq & H1 & He)].
    - now rewrite remove_order_line_absent.
    - rewrite (remove_order_line_found n self l1 e l2) by assumption. cbn.
      apply no_line_for_app. split; [assumption|].
      revert Hu. rewrite Heq, fmap_app, fmap_cons, NoDup_app, NoDup_cons.
      intros (_ & _ & Hl2 & _). apply no_line_for_not_elem. now rewrite <- He. }
  split; [assumption|]. split.
  - now apply quantity_absent.
  - now apply remove_order_line_absent.
Qed.

Lemma remove_order_line_clears_witness :
  no_line_for 123456
    (order_lines
       (snd (remove_order_line 123456
               (mkOrder [mkOrderLine (mkProduct 123456 100) 1] 100)))) /\
  quantity 123456
    (order_lines
       (snd (remove_order_line 123456
               (mkOrder [mkOrderLine (mkProduct 123456 100) 1] 100)))) = 0 /\
  remove_order_line 123456
    (snd (remove_order_line 123456
            (mkOrder [mkOrderLine (mkProduct 123456 100) 1] 100)))
  = (inr tt,
     snd (remove_order_line 123456
            (mkOrder [mkOrderLine (mkProduct 123456 100) 1] 100))).
Proof.
  apply (remove_order_line_clears 123456
           (mkOrder [mkOrderLine (mkProduct 123456 100) 1] 100)).
  apply NoDup_singleton.
Defined.

(** X6: two [remove_order_line] calls can be swapped: in every state,
    removing [n] and then [m] leaves the same lines in the same order and
    the same [overall_price] as removing [m] and then [n]. *)
Theorem remove_order_line_commute n m self :
  exec_calls [RemoveOrderLine n; RemoveOrderLine m] self
  = exec_calls [RemoveOrderLine m; RemoveOrderLine n] self.
Proof.
  destruct (decide (n = m)) as [->|Hnm]; [reflexivity|].
  cbn [exec_calls exec_call]. unfold mbind, M_MBind, M_bind.
  rewrite (remove_order_line_run n self), (remove_order_line_run m self).
  rewrite !remove_order_line_run. cbn [order_lines overall_price].
  rewrite (without_first_comm n m).
  rewrite (line_for_without_first m n), (line_for_without_first n m) by congruence.
  do 2 f_equal. lia.
Qed.

Lemma quantity_cons n x l :
  quantity n (x :: l)
  = (if line_number x =? n then product_count x else 0) + quantity n l.
Proof. unfold quantity. cbn [foldr]. destruct (line_number x =? n); lia. Qed.

(** X7: when the lines of the order went through validation, adding a
    validated line raises the units the order holds of the line's product
    by the line's count, whether the line is appended or merged, and leaves
    the units of every other product as they were. *)
Theorem add_order_line_quantity order_line self m :
  Forall constructed_OrderLine (order_lines self) ->
  constructed_OrderLine order_line ->
  quantity m (order_lines (snd (add_order_line order_line self)))
  = quantity m (order_lines self)
    + (if line_number order_line =? m then product_count order_line else 0).
Proof.
  intros Hv Hl. apply Forall_constructed_valid in Hv.
  apply constructed_OrderLine_valid in Hl.
  destruct (first_line_for (line_number order_line) (order_lines self))
    as [Habs|(l1 & e & l2 & Heq & H1 & He)].
  - rewrite add_order_line_absent by assumption. cbn [snd order_lines].
    rewrite quantity_app, quantity_cons. cbn.
    destruct (line_number order_line =? m); lia.
  - assert (Hve : valid_OrderLine e).
    { rewrite Heq in Hv. apply Forall_app in Hv as [_ Hv].
      now apply Forall_cons in Hv as [Hve _]. }
    rewrite (add_order_line_merge order_line self l1 e l2)
      by first [assumption | apply Hve | destruct Hve, Hl; lia].
    cbn [snd order_lines]. rewrite Heq, !quantity_app, !quantity_cons. rewrite <- He.
    change (line_number (merged_line e order_line)) with (line_number e).
    unfold merged_line. cbn [product_count]. cbn.
    destruct (line_number e =? m); lia.
Qed.

Lemma add_order_line_quantity_witness :
  quantity 654321
    (order_lines
       (snd (add_order_line (mkOrderLine (mkProduct 654321 200) 1)
               (mkOrder [mkOrderLine (mkProduct 123456 100) 1;
                         mkOrderLine (mkProduct 654321 200) 2] 500))))
  = quantity 654321 [mkOrderLine (mkProduct 123456 100) 1;
                     mkOrderLine (mkProduct 654321 200) 2]
    + (if 654321 =? 654321 then 1 else 0).
Proof.
  apply (add_order_line_quantity (mkOrderLine (mkProduct 654321 200) 1)
           (mkOrder [mkOrderLine (mkProduct 123456 100) 1;
                     mkOrderLine (mkProduct 654321 200) 2] 500) 654321).
  - repeat (constructor; [split; reflexivity|]). constructor.
  - split; reflexivity.
Defined.

(** X8: the two outcomes of [add_order_line], in every state.  If it
    raises, the exception is a [ValidationError], the order is exactly as
    it was, and the cause is the line it stopped at: that line's product is
    out of the validators' ranges or the merged count is below 1.  If it
    returns, [overall_price] has grown by the added line's count times its
    price, and the line it stopped at, if any, passed both checks. *)
Theorem add_order_line_outcome order_line self :
  match add_order_line order_line self with
  | (inl ex, self') =>
      self' = self /\
      (exists model errors, ex = ValidationError model errors) /\
      exists e,
        line_for (line_number order_line) (order_lines self) = Some e /\
        ~ (0 <= product_number (product e) <= 999999 /\
           1 <= price (product e) /\
           1 <= product_count e + product_count order_line)
  | (inr _, self') =>
      overall_price self'
      = overall_price self + product_count order_line * price (product order_line) /\
      match line_for (line_number order_line) (order_lines self) with
      | Some e =>
          0 <= product_number (product e) <= 999999 /\
          1 <= price (product e) /\
          1 <= product_count e + product_count order_line
      | None => True
      end
  end.
Proof.
  destruct (first_line_for (line_number order_line) (order_lines self))
    as [Habs|(l1 & e & l2 & Heq & H1 & He)].
  - rewrite add_order_line_absent, line_for_absent by assumption. now split.
  - assert (Hlf : line_for (line_number order_line) (order_lines self) = Some e)
      by (rewrite Heq; now apply line_for_first).
    destruct (decide (valid_Product (product e) /\
                      1 <= product_count e + product_count order_line))
      as [[[Hn Hq] Hk]|Hbad].
    + rewrite (add_order_line_merge order_line self l1 e l2)
        by first [assumption | now split].
      rewrite Hlf. cbn. auto.
    + destruct (add_order_line_raises_validation order_line self l1 e l2)
        as (model & errors & ->); try assumption.
      split; [reflexivity|]. split; [eauto|].
      exists e. split; [assumption|].
      intros (Hn & Hq & Hk). apply Hbad. unfold valid_Product. auto.
Qed.

(** X9: a [Product] construction does not stop at the first bad field:
    with both values out of range the [ValidationError] carries two lines,
    the one for [product_number] first, each naming its value. *)
Theorem Product_init_reports_both n q :
  n < 0 \/ 999999 < n -> q < 1 ->
  Product_init (Some n) (Some q)
  = inl (ValidationError "Product"
           [ErrorItem "product_number" (product_number_message n) "value_error";
            ErrorItem "price" (price_message q) "value_error"]).
Proof.
  intros Hn Hq. unfold Product_init, validate_field.
  now rewrite validate_product_number_err, validate_price_err.
Qed.

Lemma Product_init_reports_both_witness :
  Product_init (Some 1000000) (Some (-1))
  = inl (ValidationError "Product"
           [ErrorItem "product_number" (product_number_message 1000000) "value_error";
            ErrorItem "price" (price_message (-1)) "value_error"]).
Proof.
  apply (Product_init_reports_both 1000000 (-1)).
  - right. reflexivity.
  - reflexivity.
Defined.

(** X10: entities stay assignable.  For an instance of [Product] or of
    [Order] in any store, assigning any value to one of its fields
    succeeds without any check of the value (a price below 1 included);
    the field then reads as the new value, and the other fields of that
    instance read as before. *)
Theorem entity_assignment (h : store) a o name v :
  h !! a = Some o ->
  obj_class o = ClsProduct \/ obj_class o = ClsOrder ->
  name ∈ class_fields (obj_class o) ->
  exists h',
    setattr a name v h = (inr tt, h') /\
    getattr a name h' = Some v /\
    forall name', name' <> name -> getattr a name' h' = getattr a name' h.
Proof.
  intros Ha Hcls Hname.
  rewrite (setattr_mutable h a o) by
    first [assumption | destruct Hcls as [-> | ->]; reflexivity].
  eexists. split; [reflexivity|]. unfold getattr. split.
  - rewrite lookup_insert_eq. cbn. apply lookup_insert_eq.
  - intros name' Hne. rewrite lookup_insert_eq, Ha. cbn.
    now rewrite lookup_insert_ne by congruence.
Qed.

Lemma entity_assignment_witness :
  let h : store :=
    <[1%positive := mkObject ClsProduct
                      (<["product_number" := VInt 123456]>
                         (<["price" := VInt 1]> ∅))]> ∅ in
  exists h',
    setattr 1%positive "price" (VInt (-1)) h = (inr tt, h') /\
    getattr 1%positive "price" h' = Some (VInt (-1)) /\
    forall name',
      name' <> "price" ->
      getattr 1%positive name' h' = getattr 1%positive name' h.
Proof.
  intros h.
  apply (entity_assignment h 1%positive
           (mkObject ClsProduct
              (<["product_number" := VInt 123456]> (<["price" := VInt 1]> ∅)))
           "price" (VInt (-1))).
  - reflexivity.
  - left. reflexivity.
  - cbn. rewrite !elem_of_cons. auto.
Defined.

(** X11: two order lines are equal under the program's [==] exactly when
    they agree on the product's number, the product's price and the count;
    this is the equality [list.remove] looks a line up with. *)
Theorem OrderLine_equality_structural a b :
  (OrderLine_eqb a b = true <->
   product_number (product a) = product_number (product b) /\
   price (product a) = price (product b) /\
   product_count a = product_count b) /\
  (OrderLine_eqb a b = true <-> a = b).
Proof.
  split; [|apply OrderLine_eqb_eq].
  rewrite OrderLine_eqb_eq. destruct a as [[n q] k], b as [[n' q'] k']. cbn. split.
  - intros [= -> -> ->]. auto.
  - intros (-> & -> & ->). reflexivity.
Qed.

Section Sequences.

Lemma filter_not_named (L : list Z) a (l : list OrderLine) :
  filter (fun x => line_number x ∉ a :: L) l
  = filter (fun x => line_number x <> a) (filter (fun x => line_number x ∉ L) l).
Proof.
  rewrite list_filter_filter. apply list_filter_iff.
  intros x. rewrite not_elem_of_cons. tauto.
Qed.

Lemma exec_call_unnamed (L : list Z) c self :
  filter (fun x => line_number x ∉ call_number c :: L)
         (order_lines (snd (exec_call c self)))
  = filter (fun x => line_number x ∉ call_number c :: L) (order_lines self).
Proof.
  rewrite !(filter_not_named L).
  destruct (exec_call_change c self)
    as (l1 & gone & l2 & added & -> & -> & _ & _ & Hgone & Hadded).
  rewrite !filter_app.
  assert (Hout : forall l,
             Forall (fun x => line_number x = call_number c) l ->
             filter (fun x => line_number x <> call_number c)
                    (filter (fun x => line_number x ∉ L) l) = []).
  { intros l Hl. apply filter_all_for.
    induction Hl as [|x l Hx _ IH]; [constructor|].
    destruct (decide (line_number x ∉ L)).
    - rewrite filter_cons_True by assumption. now constructor.
    - now rewrite filter_cons_False. }
  rewrite (Hout gone), (Hout added) by assumption. now rewrite app_nil_r.
Qed.

End Sequences.

(** X12: a sequence of calls touches only the products it names.  From any
    state and for any calls, with any arguments, the lines whose product
    number no call of the sequence names are afterwards the same lines,
    in the same order, as before; this holds also when a call raises and
    ends the sequence. *)
Theorem calls_leave_unnamed_lines cs self :
  filter (fun x => line_number x ∉ call_number <$> cs)
         (order_lines (snd (exec_calls cs self)))
  = filter (fun x => line_number x ∉ call_number <$> cs) (order_lines self).
Proof.
  revert self. induction cs as [|c cs IH]; intros self; [reflexivity|].
  rewrite fmap_cons, <- (exec_call_unnamed (call_number <$> cs) c self).
  cbn [exec_calls]. unfold mbind, M_MBind, M_bind.
  destruct (exec_call c self) as [[ex|[]] self1]; [reflexivity|].
  cbn [snd]. rewrite !(filter_not_named (call_number <$> cs)).
  now rewrite IH.
Qed.

Section Swap.

Lemma line_for_some n l e :
  line_for n l = Some e -> e ∈ l /\ line_number e = n.
Proof.
  unfold line_for. intros H. apply find_some in H as [Hin He].
  split; [now apply list_elem_of_In|now apply Z.eqb_eq].
Qed.

Lemma without_first_snoc n l x :
  line_number x <> n -> without_first n (l ++ [x]) = without_first n l ++ [x].
Proof.
  intros Hx. induction l as [|y l IH]; cbn [app without_first].
  - now destruct (Z.eqb_spec (line_number x) n).
  - destruct (line_number y =? n); [reflexivity|now rewrite IH].
Qed.

Lemma line_for_snoc n l x :
  line_number x <> n -> line_for n (l ++ [x]) = line_for n l.
Proof.
  intros Hx. unfold line_for. induction l as [|y l IH]; cbn [app find].
  - now destruct (Z.eqb_spec (line_number x) n).
  - destruct (line_number y =? n); [reflexivity|assumption].
Qed.

Lemma Forall_without_first (P : OrderLine -> Prop) n l :
  Forall P l -> Forall P (without_first n l).
Proof.
  induction 1 as [|x l Hx Hl IH]; cbn [without_first]; [constructor|].
  destruct (line_number x =? n); [assumption|now constructor].
Qed.

(** The line [add_order_line] puts at the end of the list. *)
Lemma added_line_valid order_line l :
  Forall valid_OrderLine l -> valid_OrderLine order_line ->
  valid_OrderLine
    match line_for (line_number order_line) l with
    | Some e => merged_line e order_line
    | None => order_line
    end /\
  line_number
    match line_for (line_number order_line) l with
    | Some e => merged_line e order_line
    | None => order_line
    end = line_number order_line.
Proof.
  intros Hv Hl. destruct (line_for _ l) as [e|] eqn:He; [|now split].
  apply line_for_some in He as [Hin Hn]. split; [|exact Hn].
  apply merged_line_valid; [|assumption].
  revert Hin. now apply Forall_forall.
Qed.

(** What [add_order_line] does when every line passed validation, in one
    equation. *)
Lemma add_order_line_run order_line self :
  Forall valid_OrderLine (order_lines self) -> valid_OrderLine order_line ->
  add_order_line order_line self
  = (inr tt,
     mkOrder (without_first (line_number order_line) (order_lines self)
              ++ [match line_for (line_number order_line) (order_lines self) with
                  | Some e => merged_line e order_line
                  | None => order_line
                  end])
             (overall_price self + line_price order_line)).
Proof.
  intros Hv Hl.
  destruct (first_line_for (line_number order_line) (order_lines self))
    as [Habs|(l1 & e & l2 & Heq & H1 & He)].
  - now rewrite add_order_line_absent, line_for_absent, without_first_absent.
  - assert (Hve : valid_OrderLine e).
    { rewrite Heq in Hv. apply Forall_app in Hv as [_ Hv].
      now apply Forall_cons in Hv as [Hve _]. }
    rewrite (add_order_line_merge order_line self l1 e l2)
      by first [assumption | apply Hve | destruct Hve, Hl; lia].
    rewrite Heq, line_for_first, without_first_first by assumption.
    now rewrite app_assoc.
Qed.

End Swap.

(** X13: adding lines for two different products in either order gives the
    same order up to the position of the two lines at the end: when all
    lines went through validation, both sequences return, with the same
    [overall_price] and with [order_lines] that are permutations of each
    other. *)
Theorem add_order_line_swap a b self :
  Forall constructed_OrderLine (order_lines self) ->
  constructed_OrderLine a -> constructed_OrderLine b ->
  line_number a <> line_number b ->
  exists self1 self2,
    exec_calls [AddOrderLine a; AddOrderLine b] self = (inr tt, self1) /\
    exec_calls [AddOrderLine b; AddOrderLine a] self = (inr tt, self2) /\
    overall_price self1 = overall_price self2 /\
    order_lines self1 ≡ₚ order_lines self2.
Proof.
  intros Hv Ha Hb Hab. apply Forall_constructed_valid in Hv.
  apply constructed_OrderLine_valid in Ha, Hb.
  destruct (added_line_valid a (order_lines self) Hv Ha) as [HvA HnA].
  destruct (added_line_valid b (order_lines self) Hv Hb) as [HvB HnB].
  cbn [exec_calls exec_call]. unfold mbind, M_MBind, M_bind.
  rewrite (add_order_line_run a self), (add_order_line_run b self) by assumption.
  rewrite !add_order_line_run;
    try assumption;
    try (cbn [order_lines]; apply Forall_app; split;
         [now apply Forall_without_first|constructor; [assumption|constructor]]).
  do 2 eexists. split; [reflexivity|]. split; [reflexivity|].
  cbn [order_lines overall_price]. split; [lia|].
  rewrite !without_first_snoc, !line_for_snoc by congruence.
  rewrite !line_for_without_first by congruence.
  rewrite (without_first_comm (line_number a) (line_number b)).
  rewrite <- !app_assoc. apply Permutation_app_head. cbn. apply perm_swap.
Qed.

Lemma add_order_line_swap_witness :
  exists self1 self2,
    exec_calls [AddOrderLine (mkOrderLine (mkProduct 123456 100) 1);
                AddOrderLine (mkOrderLine (mkProduct 654321 200) 2)] Order_init
    = (inr tt, self1) /\
    exec_calls [AddOrderLine (mkOrderLine (mkProduct 654321 200) 2);
                AddOrderLine (mkOrderLine (mkProduct 123456 100) 1)] Order_init
    = (inr tt, self2) /\
    overall_price self1 = overall_price self2 /\
    order_lines self1 ≡ₚ order_lines self2.
Proof.
  apply (add_order_line_swap (mkOrderLine (mkProduct 123456 100) 1)
           (mkOrderLine (mkProduct 654321 200) 2) Order_init).
  - constructor.
  - split; reflexivity.
  - split; reflexivity.
  - vm_compute. discriminate.
Defined.

(** * Units per product over a run *)

Section Units.

Lemma add_order_line_units order_line self m :
  Forall valid_OrderLine (order_lines self) -> valid_OrderLine order_line ->
  quantity m (order_lines (snd (add_order_line order_line self)))
  = quantity m (order_lines self)
    + (if line_number order_line =? m then product_count order_line else 0).
Proof.
  intros Hv Hl.
  destruct (first_line_for (line_number order_line) (order_lines self))
    as [Habs|(l1 & e & l2 & Heq & H1 & He)].
  - rewrite add_order_line_absent by assumption. cbn [snd order_lines].
    rewrite quantity_app, quantity_cons. cbn.
    destruct (line_number order_line =? m); lia.
  - assert (Hve : valid_OrderLine e).
    { rewrite Heq in Hv. apply Forall_app in Hv as [_ Hv].
      now apply Forall_cons in Hv as [Hve _]. }
    rewrite (add_order_line_merge order_line self l1 e l2)
      by first [assumption | apply Hve | destruct Hve, Hl; lia].
    cbn [snd order_lines]. rewrite Heq, !quantity_app, !quantity_cons. rewrite <- He.
    change (line_number (merged_line e order_line)) with (line_number e).
    unfold merged_line. cbn [product_count]. cbn.
    destruct (line_number e =? m); lia.
Qed.

Lemma remove_order_line_units n self m :
  NoDup (line_number <$> order_lines self) ->
  quantity m (order_lines (snd (remove_order_line n self)))
  = if n =? m then 0 else quantity m (order_lines self).
Proof.
  intros Hu.
  destruct (first_line_for n (order_lines self))
    as [Habs|(l1 & e & l2 & Heq & H1 & He)].
  - rewrite remove_order_line_absent by assumption. cbn [snd].
    destruct (Z.eqb_spec n m) as [<-|_]; [now apply quantity_absent|reflexivity].
  - rewrite (remove_order_line_found n self l1 e l2) by assumption.
    cbn [snd order_lines]. rewrite Heq, !quantity_app, quantity_cons.
    destruct (Z.eqb_spec n m) as [<-|Hnm].
    + revert Hu. rewrite Heq, fmap_app, fmap_cons, NoDup_app, NoDup_cons.
      intros (_ & _ & Hl2 & _).
      rewrite !quantity_absent; [reflexivity| |assumption].
      apply no_line_for_not_elem. now rewrite <- He.
    + destruct (Z.eqb_spec (line_number e) m); [congruence|lia].
Qed.

Lemma exec_call_units c self m :
  order_inv self -> constructed_call c ->
  quantity m (order_lines (snd (exec_call c self)))
  = call_units m (quantity m (order_lines self)) c.
Proof.
  intros [Hv Hu] Hc. destruct c as [order_line|n]; cbn [exec_call call_units].
  - apply constructed_OrderLine_valid in Hc.
    rewrite add_order_line_units by assumption.
    destruct (line_number order_line =? m); lia.
  - now apply remove_order_line_units.
Qed.

Lemma exec_calls_units cs self :
  order_inv self -> Forall constructed_call cs ->
  exists self',
    exec_calls cs self = (inr tt, self') /\ order_inv self' /\
    forall m,
      quantity m (order_lines self')
      = fold_left (call_units m) cs (quantity m (order_lines self)).
Proof.
  intros Hinv Hcs. revert self Hinv.
  induction Hcs as [|c cs Hc _ IH]; intros self Hinv.
  - exists self. repeat split; assumption || apply Hinv.
  - destruct (exec_call_inv c self Hinv Hc) as (self1 & Hrun1 & Hinv1).
    destruct (IH self1 Hinv1) as (self2 & Hrun2 & Hinv2 & Hq).
    exists self2. split; [|split; [assumption|]].
    + cbn [exec_calls]. unfold mbind, M_MBind, M_bind. now rewrite Hrun1.
    + intros m. rewrite Hq. cbn [fold_left]. f_equal.
      rewrite <- (exec_call_units c self m Hinv Hc). now rewrite Hrun1.
Qed.

(** With one line per product, the units of [n] are the count of its line. *)
Lemma unique_line_quantity n l :
  NoDup (line_number <$> l) ->
  match filter (fun x => line_number x = n) l with
  | [] => quantity n l = 0
  | [x] => quantity n l = product_count x
  | _ => False
  end.
Proof.
  intros Hu.
  destruct (first_line_for n l) as [Habs|(l1 & e & l2 & -> & H1 & He)].
  - rewrite filter_no_line_for by assumption. now apply quantity_absent.
  - revert Hu. rewrite fmap_app, fmap_cons, NoDup_app, NoDup_cons.
    intros (_ & _ & Hl2 & _).
    assert (H2 : no_line_for n l2)
      by (apply no_line_for_not_elem; now rewrite <- He).
    rewrite filter_app, filter_cons_True by assumption.
    rewrite !filter_no_line_for by assumption. cbn.
    rewrite quantity_app, quantity_cons, !quantity_absent by assumption.
    rewrite He, Z.eqb_refl. lia.
Qed.

(** Calls about other products leave the units of [n] alone. *)
Lemma call_units_unnamed n mid acc :
  n ∉ call_number <$> mid -> fold_left (call_units n) mid acc = acc.
Proof.
  revert acc. induction mid as [|c mid IH]; intros acc Hn; [reflexivity|].
  rewrite fmap_cons, not_elem_of_cons in Hn. destruct Hn as [Hc Hn].
  cbn [fold_left]. rewrite IH by assumption.
  destruct c as [order_line|k]; cbn [call_units call_number] in *.
  - destruct (Z.eqb_spec (line_number order_line) n); congruence.
  - destruct (Z.eqb_spec k n); congruence.
Qed.

End Units.

(** C2: after any sequence of calls on a new order, with line arguments that
    went through validation, no two lines of [order_lines] are for the same
    product number, and the one line a product has, if any, counts exactly
    the units added for it since it was last removed.  In particular, when
    [a] and [b] are two validated lines for one product, the order has no
    line for it before [a] is added, and the calls [mid] between the two
    additions are about other products (so that the line may stand anywhere
    in the list when [b] arrives), then afterwards exactly one line is for
    that product, and its count is the sum of the two counts. *)
Theorem one_line_per_product cs mid a b :
  Forall constructed_call cs -> Forall constructed_call mid ->
  constructed_OrderLine a -> constructed_OrderLine b ->
  line_number a = line_number b ->
  line_number a ∉ call_number <$> mid ->
  exists self,
    exec_calls cs Order_init = (inr tt, self) /\
    NoDup (line_number <$> order_lines self) /\
    (forall n,
       match filter (fun x => line_number x = n) (order_lines self) with
       | [] => units_added n cs = 0
       | [x] => product_count x = units_added n cs
       | _ => False
       end) /\
    (no_line_for (line_number a) (order_lines self) ->
     exists self' merged,
       exec_calls (cs ++ AddOrderLine a :: mid ++ [AddOrderLine b]) Order_init
       = (inr tt, self') /\
       NoDup (line_number <$> order_lines self') /\
       filter (fun x => line_number x = line_number a) (order_lines self')
       = [merged] /\
       product_count merged = product_count a + product_count b).
Proof.
  intros Hcs Hmid Ha Hb Hab Hnot.
  destruct (exec_calls_units cs Order_init order_inv_init Hcs)
    as (self & Hrun & Hinv & Hq).
  exists self. split; [assumption|]. split; [apply Hinv|]. split.
  - intros n. pose proof (unique_line_quantity n (order_lines self) (proj2 Hinv)) as Hn.
    specialize (Hq n). change (quantity n (order_lines Order_init)) with 0 in Hq.
    fold (units_added n cs) in Hq.
    destruct (filter _ (order_lines self)) as [|x [|y l]]; [congruence|congruence|assumption].
  - intros Habs.
    assert (Hall : Forall constructed_call
                     (cs ++ AddOrderLine a :: mid ++ [AddOrderLine b])).
    { apply Forall_app. split; [assumption|]. constructor; [exact Ha|].
      apply Forall_app. split; [assumption|]. constructor; [exact Hb|constructor]. }
    destruct (exec_calls_units _ Order_init order_inv_init Hall)
      as (self' & Hrun' & Hinv' & Hq').
    pose proof (unique_line_quantity (line_number a) (order_lines self') (proj2 Hinv'))
      as Hn.
    specialize (Hq' (line_number a)).
    rewrite fold_left_app, <- (Hq (line_number a)) in Hq'.
    rewrite (quantity_absent _ (order_lines self)) in Hq' by assumption.
    cbn [fold_left] in Hq'. rewrite fold_left_app in Hq'. cbn [fold_left] in Hq'.
    rewrite call_units_unnamed in Hq' by assumption.
    cbn [call_units] in Hq'. rewrite <- Hab, !Z.eqb_refl in Hq'.
    apply constructed_OrderLine_valid in Ha, Hb.
    destruct Ha as [_ Hka], Hb as [_ Hkb].
    destruct (filter _ (order_lines self')) as [|x [|y l]] eqn:Hf;
      [lia| |contradiction].
    exists self', x. split; [assumption|]. split; [apply Hinv'|].
    split; [exact Hf|]. lia.
Qed.

Lemma one_line_per_product_witness :
  exists self,
    exec_calls [AddOrderLine (mkOrderLine (mkProduct 123456 100) 1)] Order_init
    = (inr tt, self) /\
    NoDup (line_number <$> order_lines self) /\
    (forall n,
       match filter (fun x => line_number x = n) (order_lines self) with
       | [] => units_added n [AddOrderLine (mkOrderLine (mkProduct 123456 100) 1)] = 0
       | [x] =>
           product_count x
           = units_added n [AddOrderLine (mkOrderLine (mkProduct 123456 100) 1)]
       | _ => False
       end) /\
    (no_line_for 654321 (order_lines self) ->
     exists self' merged,
       exec_calls ([AddOrderLine (mkOrderLine (mkProduct 123456 100) 1)]
                   ++ AddOrderLine (mkOrderLine (mkProduct 654321 200) 2)
                      :: [AddOrderLine (mkOrderLine (mkProduct 111111 50) 4);
                          RemoveOrderLine 123456]
                      ++ [AddOrderLine (mkOrderLine (mkProduct 654321 200) 1)])
         Order_init
       = (inr tt, self') /\
       NoDup (line_number <$> order_lines self') /\
       filter (fun x => line_number x = 654321) (order_lines self') = [merged] /\
       product_count merged = 2 + 1).
Proof.
  apply (one_line_per_product
           [AddOrderLine (mkOrderLine (mkProduct 123456 100) 1)]
           [AddOrderLine (mkOrderLine (mkProduct 111111 50) 4);
            RemoveOrderLine 123456]
           (mkOrderLine (mkProduct 654321 200) 2)
           (mkOrderLine (mkProduct 654321 200) 1)).
  - repeat constructor.
  - constructor; [split; reflexivity|]. constructor; [exact I|constructor].
  - split; reflexivity.
  - split; reflexivity.
  - reflexivity.
  - cbn. rewrite !not_elem_of_cons. repeat split; try discriminate.
    apply not_elem_of_nil.
Defined.
